(** * PDF uploader service: a shallow embedding of [main.py]

    The service accepts PDF uploads, extracts their text (natively, with an
    optional OCR fallback), stores the bytes in GridFS and a metadata record in
    the [document] collection, and offers a listing and a download endpoint.

    Python values are modelled as follows: a [str] is the list of its code
    points, [bytes] is a list of bytes, a [dict] is a finite map keyed by
    [str], exceptions are an explicit [outcome], and the handlers run in a
    state-and-exception monad over the [world] (the database handle and the
    history of outward effects).  What PyPDF2, the OCR provider, GridFS and
    the MongoDB driver answer during one request is an input of the model
    ([env]): a parse result, an HTTP response or a transport error, the ids
    the stores assign, and storage failures.

    Only exceptions that are instances of [Exception] are modelled;
    [GridFS(db)] and [await file.read()] do not raise; an [ObjectId] is made
    from 24 hexadecimal digits.  [database.py] and [schemas.py] are not among
    the sources: [create_document], [get_documents] and the [Document] schema
    follow the specification and say so. *)

From Stdlib Require Import String Ascii NArith ZArith List Lia Bool DecimalString.
From stdpp Require Import base option list gmap.

Import ListNotations.

(** ** Python strings *)

Module Py.

(** A [str] is an immutable sequence of code points: [len] is [length], the
    slice [s[:n]] is [firstn n s] and [+] is [++]. *)
Abbreviation char := N (only parsing).
Abbreviation str := (list N) (only parsing).

Abbreviation bytes := (list Byte.byte) (only parsing).

(** A string literal of the source. *)
Definition lit (s : string) : str :=
  map N_of_ascii (list_ascii_of_string s).

(** Truthiness of a [str]: non-empty. *)
Definition nonempty (s : str) : bool :=
  match s with
  | [] => false
  | _ :: _ => true
  end.

(** [str.isspace] on one code point: the characters [str.strip()] removes
    (bidirectional class WS, B or S, or category Zs). *)
Definition isspace (c : char) : bool :=
  ((9 <=? c) && (c <=? 13) || (28 <=? c) && (c <=? 32)
   || (c =? 133) || (c =? 160) || (c =? 5760)
   || (8192 <=? c) && (c <=? 8202)
   || (c =? 8232) || (c =? 8233) || (c =? 8239) || (c =? 8287)
   || (c =? 12288))%N.

Fixpoint lstrip (s : str) : str :=
  match s with
  | [] => []
  | c :: s' => if isspace c then lstrip s' else s
  end.

Definition rstrip (s : str) : str := rev (lstrip (rev s)).

(** [s.strip()] *)
Definition strip (s : str) : str := rstrip (lstrip s).

(** [sep.join(l)] *)
Fixpoint join (sep : str) (l : list str) : str :=
  match l with
  | [] => []
  | [x] => x
  | x :: l' => x ++ sep ++ join sep l'
  end.

Definition nl : str := [10%N].

(** [s[:n]] followed by three dots when [len(s) > n], and by nothing
    otherwise. *)
Definition truncate (n : nat) (s : str) : str :=
  firstn n s ++ (if n <? length s then lit "..." else []).

End Py.

Import Py.

(** ** Exceptions *)

Inductive exn : Type :=
| HTTPException (status_code : Z) (detail : str)
| PyError (class_name : string).

(** The result of evaluating Python code: a value, or a raised exception.
    Every [exn] is an instance of [Exception], so [except Exception] catches
    all of them. *)
Inductive outcome (A : Type) : Type :=
| Returns (a : A)
| Raises (e : exn).

Arguments Returns {A} a.
Arguments Raises {A} e.

Definition obind {A B} (o : outcome A) (k : A -> outcome B) : outcome B :=
  match o with
  | Returns a => k a
  | Raises e => Raises e
  end.

(** [try: body / except Exception: handler] *)
Definition try_except {A} (body : outcome A) (handler : exn -> outcome A) : outcome A :=
  match body with
  | Returns a => Returns a
  | Raises e => handler e
  end.

(** ** The text extractor *)

Module Extractor.

(** A page of a parsed PDF, as far as the extractor looks at it:
    [page.extract_text()] raises, or returns [None] or a [str]. *)
Record page := Page { extract_text : outcome (option str) }.

(** What [PdfReader(BytesIO(file_bytes))] gives when it does not raise: the
    pages that iterating [reader.pages] yields, and whether the iteration
    raises after them (the page list is read lazily). *)
Record reader := Reader { pages : list page; pages_raise : option exn }.

(** The [txt] of one page: what [page.extract_text()] returns, or the empty
    string when that is falsy or the call raises. *)
Definition page_text (p : page) : str :=
  match extract_text p with
  | Returns (Some t) => t
  | Returns None => []
  | Raises _ => []
  end.

(** One turn of the loop body: [if txt: texts.append(txt)]. *)
Definition visit (texts : list str) (p : page) : list str :=
  let txt := page_text p in
  if nonempty txt then texts ++ [txt] else texts.

(** The [for] loop over [reader.pages]. *)
Definition collect (r : reader) : outcome (list str) :=
  let texts := fold_left visit (pages r) [] in
  match pages_raise r with
  | Some e => Raises e
  | None => Returns texts
  end.

Section WithReader.

(** PyPDF2's parser: a function of the bytes. *)
Variable PdfReader : bytes -> outcome reader.

Definition extract_body (file_bytes : bytes) : outcome str :=
  obind (PdfReader file_bytes) (fun r =>
  obind (collect r) (fun texts =>
  Returns (strip (join nl texts)))).

Definition extract_text_from_pdf (file_bytes : bytes) : outcome str :=
  try_except (extract_body file_bytes) (fun _ => Returns []).

End WithReader.

(** The extractor as section 4.1 of the specification words it: the page
    texts joined by newlines, trimmed on the right. *)
Definition extract_text_as_specified (r : reader) : str :=
  rstrip (join nl (map page_text (pages r))).

End Extractor.

Import Extractor.

(** ** BSON object ids *)

Module Bson.

(** An [ObjectId] holds twelve bytes, read here as a number below [2^96]. *)
Definition in_range (n : N) : bool := (n <? 2 ^ 96)%N.

Record ObjectId := MkObjectId {
  oid_value : N;
  oid_in_range : Is_true (in_range oid_value)
}.

Definition make (n : N) : option ObjectId :=
  match decide (Is_true (in_range n)) with
  | left H => Some (MkObjectId n H)
  | right _ => None
  end.

Definition hexdigit (d : N) : char :=
  (if d <? 10 then 48 + d else 87 + d)%N.

Definition hexval (c : char) : option N :=
  (if (48 <=? c) && (c <=? 57) then Some (c - 48)
   else if (97 <=? c) && (c <=? 102) then Some (c - 87)
   else if (65 <=? c) && (c <=? 70) then Some (c - 55)
   else None)%N.

(** The [k] least significant hexadecimal digits of [n], most significant
    first. *)
Fixpoint to_hex (k : nat) (n : N) : str :=
  match k with
  | O => []
  | S k' => to_hex k' (n / 16)%N ++ [hexdigit (n mod 16)%N]
  end.

Fixpoint of_hex (s : str) (acc : N) : option N :=
  match s with
  | [] => Some acc
  | c :: s' =>
      match hexval c with
      | Some d => of_hex s' (16 * acc + d)%N
      | None => None
      end
  end.

(** [str(oid)]: 24 lower-case hexadecimal digits. *)
Definition to_str (o : ObjectId) : str := to_hex 24 (oid_value o).

(** [ObjectId(s)] for a [str]: 24 hexadecimal digits, or [InvalidId]. *)
Definition of_str (s : str) : outcome ObjectId :=
  if (length s =? 24)%nat then
    match of_hex s 0 with
    | Some n =>
        match make n with
        | Some o => Returns o
        | None => Raises (PyError "InvalidId")
        end
    | None => Raises (PyError "InvalidId")
    end
  else Raises (PyError "InvalidId").

Definition eqb (a b : ObjectId) : bool := (oid_value a =? oid_value b)%N.

End Bson.

Import Bson.

(** ** Values and dictionaries *)

(** The values a stored record holds. *)
Inductive value : Type :=
| VNone
| VBool (b : bool)
| VInt (z : Z)
| VStr (s : str)
| VOid (o : ObjectId).

(** A [dict] with [str] keys. *)
Abbreviation dict := (gmap (list N) value) (only parsing).

(** Python truthiness. *)
Definition truthy (v : value) : bool :=
  match v with
  | VNone => false
  | VBool b => b
  | VInt z => negb (z =? 0)%Z
  | VStr s => nonempty s
  | VOid _ => true
  end.

(** [str(v)], also what an f-string field prints. *)
Definition py_str (v : value) : str :=
  match v with
  | VNone => lit "None"
  | VBool true => lit "True"
  | VBool false => lit "False"
  | VInt z => lit (NilZero.string_of_int (Z.to_int z))
  | VStr s => s
  | VOid o => to_str o
  end.

(** [d.get(k)] and [d.get(k, dflt)] *)
Definition get (d : dict) (k : string) : value := default VNone (d !! lit k).
Definition get_or (d : dict) (k : string) (dflt : value) : value :=
  default dflt (d !! lit k).

Definition opt_value (o : option str) : value :=
  match o with
  | Some s => VStr s
  | None => VNone
  end.

(** ** The stores and the world *)

(** A file of GridFS: its bytes and the keyword arguments of [fs.put]. *)
Record gridfile := GridFile {
  gf_data : bytes;
  gf_filename : option str;
  gf_contentType : option str
}.

(** The database behind the handle [db]: named collections (each the list of
    its documents in natural order, every document carrying its [_id]) and
    the files of GridFS by the number of their id. *)
Record database := Database {
  collections : gmap (list N) (list (gmap (list N) value));
  fs_files : gmap N gridfile
}.

(** Outward effects, in the order they happened. *)
Inductive event : Type :=
| OcrRequest (file_bytes : bytes) (api_key : str)
| BlobWrite (file_id : ObjectId) (data : bytes)
| MetadataInsert (collection : str) (doc_id : ObjectId) (record : dict).

(** [db] is the module-level handle ([None] when no database is configured);
    [history] records the effects performed so far. *)
Record world := World {
  db : option database;
  history : list event
}.

(** ** What the collaborators answer during one request *)

Module Json.

(** A decoded JSON document. *)
#[warnings="-register-all"]
Inductive t : Type :=
| Null
| Bool (b : bool)
| Num (z : Z)
| Str (s : str)
| Arr (l : list t)
| Obj (items : list (str * t)).

Definition truthy (j : t) : bool :=
  match j with
  | Null => false
  | Bool b => b
  | Num z => negb (z =? 0)%Z
  | Str s => nonempty s
  | Arr l => match l with [] => false | _ => true end
  | Obj items => match items with [] => false | _ => true end
  end.

Fixpoint assoc (k : str) (items : list (str * t)) : option t :=
  match items with
  | [] => None
  | (k', v) :: rest => if bool_decide (k' = k) then Some v else assoc k rest
  end.

(** [j.get(k, dflt)]: only a [dict] has the method. *)
Definition get (j : t) (k : string) (dflt : t) : outcome t :=
  match j with
  | Obj items => Returns (default dflt (assoc (lit k) items))
  | _ => Raises (PyError "AttributeError")
  end.

(** The elements a [for] over [j] visits. *)
Definition iterate (j : t) : outcome (list t) :=
  match j with
  | Arr l => Returns l
  | Obj items => Returns (map (fun kv => Str (fst kv)) items)
  | Str s => Returns (map (fun c => Str [c]) s)
  | _ => Raises (PyError "TypeError")
  end.

End Json.

(** An HTTP response of [requests]: the status and what [r.json()] does. *)
Record response := Response {
  status_code : Z;
  json : outcome Json.t
}.

Record env := Env {
  (** PyPDF2's parser *)
  PdfReader : bytes -> outcome reader;
  (** [requests.post] to the OCR provider: a transport error or a response *)
  http_post : outcome response;
  (** [fs.put]: a storage failure, or the id GridFS gives the new file *)
  gridfs_put : outcome ObjectId;
  (** [insert_one]: a storage failure, or the id the store assigns *)
  insert_one : outcome ObjectId;
  (** a failure of [find] and [find_one] *)
  find_raises : option exn;
  (** a failure of [fs.get] other than a missing file *)
  gridfs_get_raises : option exn
}.

(** ** The handler monad: the world is threaded, exceptions propagate, and
    what was done before an exception stays done. *)

Definition M (A : Type) : Type := world -> outcome A * world.

Definition ret {A} (a : A) : M A := fun w => (Returns a, w).

Definition raise {A} (e : exn) : M A := fun w => (Raises e, w).

Definition bind {A B} (m : M A) (k : A -> M B) : M B :=
  fun w =>
    match m w with
    | (Returns a, w') => k a w'
    | (Raises e, w') => (Raises e, w')
    end.

Notation "x <- c ;; k" := (bind c (fun x => k))
  (at level 62, c at next level, right associativity).

Definition lift {A} (o : outcome A) : M A := fun w => (o, w).

(** [try: body / except Exception: handler] *)
Definition catch {A} (body : M A) (handler : exn -> M A) : M A :=
  fun w =>
    match body w with
    | (Returns a, w') => (Returns a, w')
    | (Raises e, w') => handler e w'
    end.

Definition log (e : event) : M unit :=
  fun w => (Returns tt, World (db w) (history w ++ [e])).

Definition get_db : M (option database) := fun w => (Returns (db w), w).

Definition put_database (d : database) : M unit :=
  fun w => (Returns tt, World (Some d) (history w)).

(** The handle behind [db], for code that runs after the [db is None] test. *)
Definition the_database : M database :=
  d <- get_db ;;
  match d with
  | Some d => ret d
  | None => raise (PyError "AttributeError")
  end.

Fixpoint traverse {A B} (f : A -> outcome B) (l : list A) : outcome (list B) :=
  match l with
  | [] => Returns []
  | a :: l' => obind (f a) (fun b => obind (traverse f l') (fun bs => Returns (b :: bs)))
  end.

(** ** The OCR client *)

(** [r.raise_for_status()] *)
Definition raise_for_status (r : response) : outcome unit :=
  if ((400 <=? status_code r) && (status_code r <? 600))%Z
  then Raises (PyError "HTTPError")
  else Returns tt.

(** An item of [join] must be a [str]. *)
Definition as_str (j : Json.t) : outcome str :=
  match j with
  | Json.Str s => Returns s
  | _ => Raises (PyError "TypeError")
  end.

(** Lines 91 to 97: from the response to the text. *)
Definition ocr_text_of_response (r : response) : outcome str :=
  obind (raise_for_status r) (fun _ =>
  obind (json r) (fun data =>
  obind (Json.get data "IsErroredOnProcessing" Json.Null) (fun errored =>
  if Json.truthy errored then Returns []
  else
    obind (Json.get data "ParsedResults" Json.Null) (fun found =>
    let parsed_results := if Json.truthy found then found else Json.Arr [] in
    obind (Json.iterate parsed_results) (fun prs =>
    obind (traverse (fun pr => Json.get pr "ParsedText" (Json.Str [])) prs) (fun parts =>
    obind (traverse as_str parts) (fun texts =>
    let all_text := join nl texts in
    Returns (strip all_text)))))))).

Definition ocr_with_ocrspace (E : env) (file_bytes : bytes) (api_key : str) : M str :=
  catch
    (_ <- log (OcrRequest file_bytes api_key) ;;
     r <- lift (http_post E) ;;
     lift (ocr_text_of_response r))
    (fun _ => ret []).

(** ** Requests, records and responses *)

Module UploadFile.
Record t := Make {
  filename : option str;
  content_type : option str;
  (** what [await file.read()] returns *)
  content : bytes
}.
End UploadFile.

Module UploadResponse.
Record t := Make {
  id : str;
  filename : str;
  size : Z;
  ocr_used : bool;
  extracted_text_preview : str
}.

(** The constructor validates its fields: [filename] must be a [str]. *)
Definition new (id : str) (filename : option str) (size : Z) (ocr_used : bool)
    (extracted_text_preview : str) : outcome t :=
  match filename with
  | Some f => Returns (Make id f size ocr_used extracted_text_preview)
  | None => Raises (PyError "ValidationError")
  end.
End UploadResponse.

Module DocumentSchema.
(** Modelled from the spec: [schemas.Document] is not among the sources; the
    fields are those of the document record of section 3 (the [id] is
    assigned by the store on insert). *)
Record t := Make {
  filename : str;
  content_type : str;
  size : Z;
  extracted_text : str;
  ocr_used : bool;
  file_id : str
}.

(** Modelled from the spec: the constructor takes the keyword arguments of
    the call in [upload_document]; [filename] and [content_type] are strings
    in section 3, so [None] is refused. *)
Definition new (filename content_type : option str) (size : Z)
    (extracted_text : str) (ocr_used : bool) (file_id : str) : outcome t :=
  match filename, content_type with
  | Some f, Some c => Returns (Make f c size extracted_text ocr_used file_id)
  | _, _ => Raises (PyError "ValidationError")
  end.

(** Modelled from the spec: the record as the store holds it. *)
Definition model_dump (d : t) : dict :=
  <[lit "filename" := VStr (filename d)]>
  (<[lit "content_type" := VStr (content_type d)]>
  (<[lit "size" := VInt (size d)]>
  (<[lit "extracted_text" := VStr (extracted_text d)]>
  (<[lit "ocr_used" := VBool (ocr_used d)]>
  (<[lit "file_id" := VStr (file_id d)]> ∅))))).
End DocumentSchema.

Record StreamingResponse := {
  (** the bytes the response streams *)
  body : bytes;
  media_type : value;
  headers : list (str * str)
}.

(** [s.encode("latin-1")] succeeds: every code point is below 256. *)
Definition latin1 (s : str) : bool := forallb (fun c => (c <? 256)%N) s.

(** [StreamingResponse(content, media_type=media_type,
    headers={"Content-Disposition": disposition})].  The constructor encodes
    the header value in latin-1 and then, unless the media type is [None],
    calls a [str] method on the media type and encodes it in latin-1 too;
    the content is only read when the response is sent. *)
Definition StreamingResponse_new (content : bytes) (media_type : value) (disposition : str)
    : outcome StreamingResponse :=
  let response :=
    {| body := content;
       media_type := media_type;
       headers := [(lit "Content-Disposition", disposition)] |} in
  if latin1 disposition then
    match media_type with
    | VNone => Returns response
    | VStr s => if latin1 s then Returns response else Raises (PyError "UnicodeEncodeError")
    | _ => Raises (PyError "AttributeError")
    end
  else Raises (PyError "UnicodeEncodeError").

(** ** The stores' operations *)

(** [db[name]]: a collection that does not exist yet is empty. *)
Definition collection (d : database) (name : str) : list dict :=
  default [] (collections d !! name).

Definition has_id (o : ObjectId) (doc : dict) : bool :=
  match doc !! lit "_id" with
  | Some (VOid o') => Bson.eqb o' o
  | _ => false
  end.

(** The database with one more file in GridFS. *)
Definition add_file (d : database) (o : ObjectId) (f : gridfile) : database :=
  Database (collections d) (<[oid_value o := f]> (fs_files d)).

(** The database with one more document, stored under the [_id] [o], at the
    end of the collection [name]. *)
Definition add_document (d : database) (name : str) (o : ObjectId) (record : dict) : database :=
  Database
    (<[name := collection d name ++ [<[lit "_id" := VOid o]> record]]> (collections d))
    (fs_files d).

(** [fs.put(data, filename=..., contentType=...)] *)
Definition fs_put (E : env) (data : bytes) (filename contentType : option str) : M ObjectId :=
  d <- the_database ;;
  file_id <- lift (gridfs_put E) ;;
  match fs_files d !! oid_value file_id with
  | Some _ => raise (PyError "FileExists")
  | None =>
      _ <- put_database (add_file d file_id (GridFile data filename contentType)) ;;
      _ <- log (BlobWrite file_id data) ;;
      ret file_id
  end.

(** [fs.get(file_id)] *)
Definition fs_get (E : env) (file_id : ObjectId) : M gridfile :=
  d <- the_database ;;
  match gridfs_get_raises E with
  | Some e => raise e
  | None =>
      match fs_files d !! oid_value file_id with
      | Some f => ret f
      | None => raise (PyError "NoFile")
      end
  end.

(** [db[name].find_one({"_id": o})] *)
Definition find_one (E : env) (name : str) (o : ObjectId) : M (option dict) :=
  d <- the_database ;;
  match find_raises E with
  | Some e => raise e
  | None => ret (List.find (has_id o) (collection d name))
  end.

(** [db[name].insert_one(record)]: the store assigns the [_id]. *)
Definition insert (E : env) (name : str) (record : dict) : M ObjectId :=
  d <- the_database ;;
  doc_id <- lift (insert_one E) ;;
  if existsb (has_id doc_id) (collection d name)
  then raise (PyError "DuplicateKeyError")
  else
    _ <- put_database (add_document d name doc_id record) ;;
    _ <- log (MetadataInsert name doc_id record) ;;
    ret doc_id.

(** Modelled from the spec: [database.create_document] is not among the
    sources; section 2 has the metadata store insert the record under an
    identifier it assigns, which is what the caller gets back. *)
Definition create_document (E : env) (collection_name : str) (data : DocumentSchema.t) : M ObjectId :=
  insert E collection_name (DocumentSchema.model_dump data).

(** Modelled from the spec: [database.get_documents] is not among the
    sources; section 4.4 has it fetch up to [limit] records, in an order the
    specification leaves open (here, the collection's natural order). *)
Definition get_documents (E : env) (collection_name : str) (limit : Z) : M (list dict) :=
  d <- the_database ;;
  match find_raises E with
  | Some e => raise e
  | None => ret (firstn (Z.to_nat limit) (collection d collection_name))
  end.

(** ** The upload handler *)

Definition pdf_mime : str := lit "application/pdf".

(** Line 124: [text_ok = len(text.strip()) > 20]. *)
Definition text_ok (text : str) : bool := (20 <? length (strip text))%nat.

(** Line 128: the test that guards the OCR path. *)
Definition enters_ocr_path (use_ocr : bool) (text : str) : bool :=
  use_ocr || negb (text_ok text).

(** [not ocr_api_key]: no key, or an empty one. *)
Definition key_supplied (ocr_api_key : option str) : option str :=
  match ocr_api_key with
  | Some k => if nonempty k then Some k else None
  | None => None
  end.

(** Lines 127 to 139: the text to store and the [ocr_used] flag. *)
Definition choose_text (E : env) (file_bytes : bytes) (use_ocr : bool)
    (ocr_api_key : option str) (text : str) : M (str * bool) :=
  r <- (if enters_ocr_path use_ocr text then
          match key_supplied ocr_api_key with
          | None => ret (text, false)
          | Some key =>
              ocr_text <- ocr_with_ocrspace E file_bytes key ;;
              if nonempty ocr_text then ret (ocr_text, true) else ret (text, false)
          end
        else ret (text, false)) ;;
  let '(text, ocr_used) := r in
  ret (if nonempty text then text else [], ocr_used).

(** Line 158 *)
Definition preview (text : str) : str :=
  if nonempty text then truncate 300 text else [].

(** Lines 141 to 165: the two writes and the response. *)
Definition persist (E : env) (file : UploadFile.t) (file_bytes : bytes) (size : Z)
    (text : str) (ocr_used : bool) : M UploadResponse.t :=
  d <- get_db ;;
  match d with
  | None => raise (HTTPException 500 (lit "Database not configured"))
  | Some _ =>
      file_id <- fs_put E file_bytes (UploadFile.filename file) (UploadFile.content_type file) ;;
      doc <- lift (DocumentSchema.new (UploadFile.filename file) (UploadFile.content_type file)
                     size text ocr_used (py_str (VOid file_id))) ;;
      doc_id <- create_document E (lit "document") doc ;;
      lift (UploadResponse.new (py_str (VOid doc_id)) (UploadFile.filename file) size ocr_used
              (preview text))
  end.

Definition upload_document (E : env) (file : UploadFile.t) (use_ocr : bool)
    (ocr_api_key : option str) : M UploadResponse.t :=
  if negb (bool_decide (UploadFile.content_type file = Some pdf_mime))
  then raise (HTTPException 400 (lit "Only PDF files are supported"))
  else
    let file_bytes := UploadFile.content file in
    let size := Z.of_nat (length file_bytes) in
    text <- lift (extract_text_from_pdf (PdfReader E) file_bytes) ;;
    r <- choose_text E file_bytes use_ocr ocr_api_key text ;;
    let '(text, ocr_used) := r in
    persist E file file_bytes size text ocr_used.

(** ** The list handler *)

Definition serialize (d : dict) : dict :=
  let d := <[lit "id" := VStr (py_str (get d "_id"))]> d in
  let d := <[lit "file_id" := if truthy (get d "file_id")
                              then VStr (py_str (get d "file_id")) else VNone]> d in
  match d !! lit "extracted_text" with
  | Some (VStr txt) =>
      delete (lit "extracted_text")
        (<[lit "extracted_text_preview" := VStr (truncate 200 txt)]> d)
  | _ => d
  end.

(** The [items] of the response. *)
Definition list_documents (E : env) (limit : Z) : M (list dict) :=
  docs <- get_documents E (lit "document") limit ;;
  ret (map serialize docs).

(** ** The download handler *)

Definition not_found : exn := HTTPException 404 (lit "Document not found").

(** [ObjectId(v)] for the values the handler passes: a [str] or an
    [ObjectId] (the handler never passes [None]). *)
Definition ObjectId_of (v : value) : outcome ObjectId :=
  match v with
  | VStr s => of_str s
  | VOid o => Returns o
  | _ => Raises (PyError "TypeError")
  end.

(** [not doc]: no record, or an empty one. *)
Definition no_doc (doc : option dict) : bool :=
  match doc with
  | None => true
  | Some d => (size d =? 0)%nat
  end.

Definition download_document (E : env) (doc_id : str) : M StreamingResponse :=
  d <- get_db ;;
  match d with
  | None => raise (HTTPException 500 (lit "Database not configured"))
  | Some _ =>
      catch
        (oid <- lift (ObjectId_of (VStr doc_id)) ;;
         doc <- find_one E (lit "document") oid ;;
         if no_doc doc || negb (truthy (get (default ∅ doc) "file_id"))
         then raise not_found
         else
           let doc := default ∅ doc in
           file_id <- lift (ObjectId_of (get doc "file_id")) ;;
           gridout <- fs_get E file_id ;;
           lift (StreamingResponse_new (gf_data gridout)
                   (get_or doc "content_type" (VStr pdf_mime))
                   (lit "attachment; filename="
                    ++ py_str (get_or doc "filename" (VStr (lit "document.pdf"))))))
        (fun _ => raise not_found)
  end.

(** ** Runs of the service *)

Inductive request : Type :=
| Upload (file : UploadFile.t) (use_ocr : bool) (ocr_api_key : option str)
| ListDocuments (limit : Z)
| Download (doc_id : str).

(** The world after the service has handled one request. *)
Definition handle (E : env) (r : request) (w : world) : world :=
  match r with
  | Upload file use_ocr ocr_api_key => snd (upload_document E file use_ocr ocr_api_key w)
  | ListDocuments limit => snd (list_documents E limit w)
  | Download doc_id => snd (download_document E doc_id w)
  end.

(** The service starts with nothing stored and nothing done: without a
    database, or with an empty one. *)
Definition initial (configured : bool) : world :=
  World (if configured then Some (Database ∅ ∅) else None) [].

Inductive reachable : world -> Prop :=
| reachable_initial configured : reachable (initial configured)
| reachable_handle E r w : reachable w -> reachable (handle E r w).

(** A record of the [document] collection refers to a blob that was written:
    its [file_id] prints the id of a completed [fs.put], and GridFS holds
    that file. *)
Definition refers_to_written_blob (w : world) (doc : dict) : Prop :=
  exists file_id data,
    doc !! lit "file_id" = Some (VStr (to_str file_id))
    /\ In (BlobWrite file_id data) (history w)
    /\ exists d f, db w = Some d
         /\ fs_files d !! oid_value file_id = Some f /\ gf_data f = data.

Definition documents (w : world) : list dict :=
  match db w with
  | Some d => collection d (lit "document")
  | None => []
  end.

(** The OCR requests among some events. *)
Definition ocr_requests (evs : list event) : list event :=
  List.filter (fun e => match e with OcrRequest _ _ => true | _ => false end) evs.

(** ** The diagnostic endpoint *)

Module Diagnostics.

(** What evaluating an expression on the database handle gives: a value, or
    an exception [e] whose [str(e)] is [message]. *)
Inductive attempt (A : Type) : Type :=
| Ok (a : A)
| Failed (message : str).

Arguments Ok {A} a.
Arguments Failed {A} message.

(** What [test_database] reads besides [db]. *)
Record probe := Probe {
  (** [os.getenv("DATABASE_URL")] *)
  DATABASE_URL : option str;
  (** [db.name if hasattr(db, 'name') else ...]: the name, [None] when the
      handle has no such attribute *)
  db_name : attempt (option str);
  (** [db.list_collection_names()] *)
  list_collection_names : attempt (list str)
}.

(** The [response] dictionary, by key. *)
Record report := Report {
  backend : str;
  database : str;
  database_url : option str;
  database_name : option str;
  connection_status : str;
  collections : list str
}.

Definition check_mark : str := [9989%N].
Definition cross_mark : str := [10060%N].
Definition warning_sign : str := [9888%N; 65039%N].

(** Lines 37 to 44 *)
Definition response0 : report :=
  {| backend := check_mark ++ lit " Running";
     database := cross_mark ++ lit " Not Available";
     database_url := None;
     database_name := None;
     connection_status := lit "Not Connected";
     collections := [] |}.

Definition set_database (r : report) (v : str) : report :=
  {| backend := backend r; database := v; database_url := database_url r;
     database_name := database_name r; connection_status := connection_status r;
     collections := collections r |}.

(** Lines 45 to 61: the assignments made before an exception stay made. *)
Definition test_database (P : probe) : M report :=
  d <- get_db ;;
  ret
    match d with
    | Some _ =>
        let r := set_database response0 (check_mark ++ lit " Available") in
        let r :=
          {| backend := backend r; database := database r;
             database_url :=
               Some (if match DATABASE_URL P with Some u => nonempty u | None => false end
                     then check_mark ++ lit " Set" else cross_mark ++ lit " Not Set");
             database_name := database_name r; connection_status := connection_status r;
             collections := collections r |} in
        match db_name P with
        | Failed message =>
            set_database r (cross_mark ++ lit " Error: " ++ firstn 80 message)
        | Ok name =>
            let r :=
              {| backend := backend r; database := database r;
                 database_url := database_url r;
                 database_name :=
                   Some (match name with
                         | Some n => n
                         | None => check_mark ++ lit " Connected"
                         end);
                 connection_status := lit "Connected";
                 collections := collections r |} in
            match list_collection_names P with
            | Ok names =>
                {| backend := backend r;
                   database := check_mark ++ lit " Connected & Working";
                   database_url := database_url r; database_name := database_name r;
                   connection_status := connection_status r;
                   collections := firstn 10 names |}
            | Failed message =>
                set_database r
                  (warning_sign ++ lit "  Connected but Error: " ++ firstn 80 message)
            end
        end
    | None =>
        set_database response0 (warning_sign ++ lit "  Available but not initialized")
    end.

End Diagnostics.

(** The world after the service has handled the requests [steps] in turn,
    each in its own environment. *)
Definition run (steps : list (env * request)) (w : world) : world :=
  fold_left (fun w step => handle (fst step) (snd step) w) steps w.

(** The record [doc] is found under the id [o] and GridFS holds [f] under
    [file_id]. *)
Definition holds (o : ObjectId) (doc : dict) (file_id : ObjectId) (f : gridfile)
    (w : world) : Prop :=
  exists d,
    db w = Some d
    /\ List.find (has_id o) (collection d (lit "document")) = Some doc
    /\ fs_files d !! oid_value file_id = Some f.

(** ** Views of a run used to state the properties *)

(** What the OCR client returns in the environment [E]. *)
Definition ocr_result (E : env) : str :=
  match obind (http_post E) ocr_text_of_response with
  | Returns s => s
  | Raises _ => []
  end.

(** The record of the [document] collection that [find_one] gives for the
    identifier [id] of a response. *)
Definition stored_record (w : world) (id : str) : option dict :=
  match of_str id with
  | Returns o => List.find (has_id o) (documents w)
  | Raises _ => None
  end.

(** A field of that record. *)
Definition stored_field (w : world) (id : str) (k : string) : option value :=
  match stored_record w id with
  | Some doc => doc !! lit k
  | None => None
  end.

(** The stores take the two writes of an upload of [file]: the database is
    configured, the writes do not fail, the ids are new, and the file has a
    name. *)
Definition storage_accepts (E : env) (w : world) (file : UploadFile.t) : Prop :=
  exists d file_id doc_id filename,
    db w = Some d
    /\ gridfs_put E = Returns file_id
    /\ fs_files d !! oid_value file_id = None
    /\ insert_one E = Returns doc_id
    /\ existsb (has_id doc_id) (collection d (lit "document")) = false
    /\ UploadFile.filename file = Some filename.

(** The ways lines 127 to 139 can go, for the native text [text]: the text
    kept, the [ocr_used] flag and the OCR requests made. *)
Inductive choice (E : env) (file_bytes : bytes) (use_ocr : bool) (ocr_api_key : option str)
    (text : str) : str -> bool -> list event -> Prop :=
| ocr_not_needed :
    enters_ocr_path use_ocr text = false ->
    choice E file_bytes use_ocr ocr_api_key text text false []
| ocr_without_key :
    enters_ocr_path use_ocr text = true ->
    key_supplied ocr_api_key = None ->
    choice E file_bytes use_ocr ocr_api_key text text false []
| ocr_applied key :
    enters_ocr_path use_ocr text = true ->
    key_supplied ocr_api_key = Some key ->
    nonempty (ocr_result E) = true ->
    choice E file_bytes use_ocr ocr_api_key text (ocr_result E) true
      [OcrRequest file_bytes key]
| ocr_empty key :
    enters_ocr_path use_ocr text = true ->
    key_supplied ocr_api_key = Some key ->
    ocr_result E = [] ->
    choice E file_bytes use_ocr ocr_api_key text text false [OcrRequest file_bytes key].

(** The record [upload_document] hands to [create_document]. *)
Definition record_of (filename content_type : str) (size : Z) (text : str) (ocr_used : bool)
    (file_id : ObjectId) : dict :=
  DocumentSchema.model_dump
    (DocumentSchema.Make filename content_type size text ocr_used (to_str file_id)).

(** The stages at which lines 141 to 156 can stop, from the database [d]:
    the database reached and the writes made. *)
Inductive persisted (d : database) (file : UploadFile.t) (size : Z) (text : str)
    (ocr_used : bool) : database -> list event -> Prop :=
| nothing_written : persisted d file size text ocr_used d []
| blob_written file_id :
    fs_files d !! oid_value file_id = None ->
    persisted d file size text ocr_used
      (add_file d file_id
         (GridFile (UploadFile.content file) (UploadFile.filename file)
            (UploadFile.content_type file)))
      [BlobWrite file_id (UploadFile.content file)]
| record_written file_id doc_id filename content_type :
    fs_files d !! oid_value file_id = None ->
    existsb (has_id doc_id) (collection d (lit "document")) = false ->
    UploadFile.filename file = Some filename ->
    UploadFile.content_type file = Some content_type ->
    persisted d file size text ocr_used
      (add_document
         (add_file d file_id
            (GridFile (UploadFile.content file) (UploadFile.filename file)
               (UploadFile.content_type file)))
         (lit "document") doc_id
         (record_of filename content_type size text ocr_used file_id))
      [BlobWrite file_id (UploadFile.content file);
       MetadataInsert (lit "document") doc_id
         (record_of filename content_type size text ocr_used file_id)].

(** The files of GridFS. *)
Definition files (w : world) : gmap N gridfile :=
  match db w with
  | Some d => fs_files d
  | None => ∅
  end.

(** The causes for which a download does not resolve: the identifier is not
    a well-formed id, the lookup fails or finds no record, the record has no
    blob reference, or the blob cannot be fetched (its reference is not an
    id, the fetch fails, or GridFS has no such file). *)
Inductive resolution_failure (E : env) (w : world) (doc_id : str) : Prop :=
| bad_identifier e :
    of_str doc_id = Raises e -> resolution_failure E w doc_id
| lookup_failed o e :
    of_str doc_id = Returns o -> find_raises E = Some e -> resolution_failure E w doc_id
| record_missing o :
    of_str doc_id = Returns o ->
    List.find (has_id o) (documents w) = None -> resolution_failure E w doc_id
| no_blob_reference o doc :
    of_str doc_id = Returns o ->
    List.find (has_id o) (documents w) = Some doc ->
    truthy (get doc "file_id") = false -> resolution_failure E w doc_id
| bad_blob_reference o doc e :
    of_str doc_id = Returns o ->
    List.find (has_id o) (documents w) = Some doc ->
    ObjectId_of (get doc "file_id") = Raises e -> resolution_failure E w doc_id
| blob_fetch_failed o doc e :
    of_str doc_id = Returns o ->
    List.find (has_id o) (documents w) = Some doc ->
    gridfs_get_raises E = Some e -> resolution_failure E w doc_id
| blob_missing o doc file_id :
    of_str doc_id = Returns o ->
    List.find (has_id o) (documents w) = Some doc ->
    ObjectId_of (get doc "file_id") = Returns file_id ->
    files w !! oid_value file_id = None -> resolution_failure E w doc_id.

(** Every record of the [document] collection refers to a written blob. *)
Definition consistent (w : world) : Prop :=
  forall doc, In doc (documents w) -> refers_to_written_blob w doc.

(** A record that holds its extracted text, a string. *)
Definition has_text (doc : dict) : Prop :=
  exists txt, doc !! lit "extracted_text" = Some (VStr txt).

(** ** Concrete inputs *)

Module Examples.

Definition oid (n : N) : ObjectId := default (MkObjectId 0 I) (make n).

Definition file_oid : ObjectId := oid 0x507f1f77bcf86cd799439011.
Definition doc_oid : ObjectId := oid 0x507f191e810c19729de860ea.

(** A reader whose pages give the texts [texts]. *)
Definition reader_of (texts : list str) : bytes -> outcome reader :=
  fun _ => Returns (Reader (map (fun t => Page (Returns (Some t))) texts) None).

(** The OCR provider answering with one parsed result. *)
Definition ocr_reply (text : str) : outcome response :=
  Returns (Response 200
    (Returns (Json.Obj [(lit "ParsedResults",
                         Json.Arr [Json.Obj [(lit "ParsedText", Json.Str text)]])]))).

(** An environment in which the stores work. *)
Definition env_of (texts : list str) (ocr_text : str) : env :=
  Env (reader_of texts) (ocr_reply ocr_text) (Returns file_oid) (Returns doc_oid) None None.

Definition long_text : str := lit "Quarterly report: revenue grew by four percent.".
Definition short_text : str := lit "p. 1".
Definition scanned_text : str := lit "Scanned invoice 42".

Definition pdf : UploadFile.t :=
  UploadFile.Make (Some (lit "report.pdf")) (Some pdf_mime)
    [Byte.x25; Byte.x50; Byte.x44; Byte.x46].

Definition notes : UploadFile.t :=
  UploadFile.Make (Some (lit "notes.txt")) (Some (lit "text/plain")) [Byte.x68; Byte.x69].

(** The same PDF under a name outside latin-1: U+62A5 U+544A, then [.pdf]. *)
Definition wide_pdf : UploadFile.t :=
  UploadFile.Make (Some ([25253%N; 21578%N] ++ lit ".pdf")) (Some pdf_mime)
    [Byte.x25; Byte.x50; Byte.x44; Byte.x46].

Definition api_key : str := lit "K81234567".

(** The world after [pdf] was uploaded to an empty database. *)
Definition after_upload : world :=
  snd (upload_document (env_of [long_text] []) pdf false None (initial true)).

(** The world after [wide_pdf] was uploaded to an empty database. *)
Definition after_wide_upload : world :=
  snd (upload_document (env_of [long_text] []) wide_pdf false None (initial true)).

(** A stored record as section 3 describes it, with a long text. *)
Definition stored_doc : dict :=
  <[lit "_id" := VOid doc_oid]>
    (record_of (lit "report.pdf") pdf_mime 4 (lit "Quarterly " ++ long_text ++ long_text
       ++ long_text ++ long_text ++ long_text) false file_oid).

(** Seven pages of text, and the text the extractor makes of them. *)
Definition long_pages : list str := repeat long_text 7.
Definition long_report : str := strip (join nl long_pages).

(** An environment in which the OCR provider answers [reply]. *)
Definition ocr_env (reply : outcome response) : env :=
  Env (reader_of []) reply (Returns file_oid) (Returns doc_oid) None None.

(** A body with three parsed results, the second without a text. *)
Definition three_results : Json.t :=
  Json.Obj
    [(lit "ParsedResults",
      Json.Arr [Json.Obj [(lit "ParsedText", Json.Str (lit " page one"))];
                Json.Obj [(lit "TextOverlay", Json.Null)];
                Json.Obj [(lit "ParsedText", Json.Str (lit "page three "))]]);
     (lit "IsErroredOnProcessing", Json.Bool false)].

(** A body whose second parsed result has a [ParsedText] that is no string. *)
Definition null_text_result : Json.t :=
  Json.Obj
    [(lit "ParsedResults",
      Json.Arr [Json.Obj [(lit "ParsedText", Json.Str (lit "page one"))];
                Json.Obj [(lit "ParsedText", Json.Null)]])].

(** A database with one record that has no name and no content type and
    holds its file id as an [ObjectId], and the file it names. *)
Definition bare_world : world :=
  World
    (Some (Database
             {[lit "document" := [<[lit "_id" := VOid doc_oid]>
                                    {[lit "file_id" := VOid file_oid]}]]}
             {[oid_value file_oid := GridFile [Byte.x25; Byte.x50] None None]}))
    [].

End Examples.

(** * Properties *)

(** ** Strings *)

Section Strings.

Implicit Types (s t : str) (c : char).

Lemma lstrip_idem s : lstrip (lstrip s) = lstrip s.
Proof.
  induction s as [|c s IH]; simpl; [reflexivity|].
  destruct (isspace c) eqn:Hc; [exact IH|].
  simpl. now rewrite Hc.
Qed.

(** A string that does not end in a space keeps its end under [lstrip]. *)
Lemma lstrip_snoc s c : isspace c = false -> lstrip (s ++ [c]) = lstrip s ++ [c].
Proof.
  intros Hc. induction s as [|a s IH]; simpl.
  - now rewrite Hc.
  - destruct (isspace a); [exact IH|reflexivity].
Qed.

Lemma rstrip_cons c s : isspace c = false -> rstrip (c :: s) = c :: rstrip s.
Proof.
  intros Hc. unfold rstrip. simpl rev at 2.
  rewrite lstrip_snoc by assumption.
  now rewrite rev_app_distr.
Qed.

Lemma rstrip_idem s : rstrip (rstrip s) = rstrip s.
Proof. unfold rstrip. now rewrite rev_involutive, lstrip_idem. Qed.

Lemma lstrip_head s c : head (lstrip s) = Some c -> isspace c = false.
Proof.
  induction s as [|a s IH]; simpl; [discriminate|].
  destruct (isspace a) eqn:Ha; [exact IH|].
  simpl. intros [= <-]. exact Ha.
Qed.

Lemma lstrip_rstrip_lstrip s : lstrip (rstrip (lstrip s)) = rstrip (lstrip s).
Proof.
  destruct (lstrip s) as [|c t] eqn:Hs; [reflexivity|].
  assert (Hc : isspace c = false) by (apply (lstrip_head s); now rewrite Hs).
  rewrite rstrip_cons by assumption. simpl. now rewrite Hc.
Qed.

Lemma strip_idem s : strip (strip s) = strip s.
Proof.
  unfold strip. rewrite lstrip_rstrip_lstrip. apply rstrip_idem.
Qed.

Lemma strip_head s c : head (strip s) = Some c -> isspace c = false.
Proof.
  intros H. apply (lstrip_head (strip s)).
  unfold strip in *. now rewrite lstrip_rstrip_lstrip.
Qed.

Lemma last_rev_head {A} (l : list A) : last l = head (rev l).
Proof.
  induction l as [|a l IH] using rev_ind; [reflexivity|].
  now rewrite last_snoc, rev_app_distr.
Qed.

Lemma strip_last s c : last (strip s) = Some c -> isspace c = false.
Proof.
  rewrite last_rev_head. unfold strip, rstrip. rewrite rev_involutive.
  apply lstrip_head.
Qed.

Lemma truncate_long n s : n < length s -> truncate n s = firstn n s ++ lit "...".
Proof.
  intros H. unfold truncate.
  destruct (Nat.ltb_spec n (length s)); [reflexivity|lia].
Qed.

Lemma truncate_short n s : length s <= n -> truncate n s = s.
Proof.
  intros H. unfold truncate.
  destruct (Nat.ltb_spec n (length s)); [lia|].
  rewrite firstn_all2 by assumption. apply app_nil_r.
Qed.

Lemma nonempty_false s : nonempty s = false -> s = [].
Proof. destruct s; [reflexivity|discriminate]. Qed.

Lemma nonempty_true s : nonempty s = true <-> s <> [].
Proof. destruct s; simpl; split; congruence. Qed.

End Strings.

(** ** The text extractor *)

Section ExtractorFacts.

Variable PdfReader : bytes -> outcome reader.

Lemma page_text_raises p e : extract_text p = Raises e -> page_text p = [].
Proof. unfold page_text. now intros ->. Qed.

Lemma fold_visit ps acc :
  fold_left visit ps acc = acc ++ List.filter nonempty (map page_text ps).
Proof.
  revert acc. induction ps as [|p ps IH]; intros acc; simpl.
  - now rewrite app_nil_r.
  - rewrite IH. unfold visit.
    destruct (nonempty (page_text p)); [|reflexivity].
    now rewrite <- app_assoc.
Qed.

(** The texts the loop collects: those of the pages that gave some. *)
Lemma collect_returns r :
  pages_raise r = None ->
  collect r = Returns (List.filter nonempty (map page_text (pages r))).
Proof. unfold collect. intros ->. now rewrite fold_visit. Qed.

Lemma extract_total file_bytes :
  exists text, extract_text_from_pdf PdfReader file_bytes = Returns text
               /\ strip text = text.
Proof.
  unfold extract_text_from_pdf, extract_body.
  destruct (PdfReader file_bytes) as [r|e]; simpl; [|now exists []].
  destruct (collect r) as [texts|e]; simpl; [|now exists []].
  eexists. split; [reflexivity|apply strip_idem].
Qed.

Lemma extract_parsed file_bytes r :
  PdfReader file_bytes = Returns r -> pages_raise r = None ->
  extract_text_from_pdf PdfReader file_bytes
  = Returns (strip (join nl (List.filter nonempty (map page_text (pages r))))).
Proof.
  intros Hr Hnone. unfold extract_text_from_pdf, extract_body.
  rewrite Hr. simpl. now rewrite collect_returns.
Qed.

End ExtractorFacts.

(** C10: whatever the bytes, the extractor returns a text that is its own
    [strip] (its first and last characters, if any, are not whitespace), so
    the handler's test [len(text.strip()) > 20] is the test
    [len(text) > 20] on the extractor's output. *)
Theorem extractor_output_is_stripped (PdfReader : bytes -> outcome reader) (file_bytes : bytes) :
  exists text,
    extract_text_from_pdf PdfReader file_bytes = Returns text
    /\ strip text = text
    /\ (forall c, head text = Some c -> isspace c = false)
    /\ (forall c, last text = Some c -> isspace c = false)
    /\ text_ok text = (20 <? length text)%nat.
Proof.
  destruct (extract_total PdfReader file_bytes) as (text & Hrun & Hstrip).
  exists text. repeat split; try assumption.
  - intros c. rewrite <- Hstrip. apply strip_head.
  - intros c. rewrite <- Hstrip. apply strip_last.
  - unfold text_ok. now rewrite Hstrip.
Qed.

(** C4, as amended: the extractor always returns; a failure of the parser or
    of the page iteration gives the empty string; a page whose extraction
    raises gives no text and the other pages are still read; and when the
    parse succeeds the result is the non-empty page texts joined by newlines
    and stripped of whitespace at both ends. *)
Theorem extractor_never_raises (PdfReader : bytes -> outcome reader) (file_bytes : bytes) :
  (exists text, extract_text_from_pdf PdfReader file_bytes = Returns text)
  /\ (forall e, PdfReader file_bytes = Raises e ->
        extract_text_from_pdf PdfReader file_bytes = Returns [])
  /\ (forall r e, PdfReader file_bytes = Returns r -> pages_raise r = Some e ->
        extract_text_from_pdf PdfReader file_bytes = Returns [])
  /\ (forall r, PdfReader file_bytes = Returns r -> pages_raise r = None ->
        extract_text_from_pdf PdfReader file_bytes
        = Returns (strip (join nl (List.filter nonempty (map page_text (pages r))))))
  /\ (forall p e before after,
        extract_text p = Raises e ->
        page_text p = []
        /\ extract_text_from_pdf (fun _ => Returns (Reader (before ++ p :: after) None)) file_bytes
           = extract_text_from_pdf (fun _ => Returns (Reader (before ++ after) None)) file_bytes).
Proof.
  split; [|split; [|split; [|split]]].
  - destruct (extract_total PdfReader file_bytes) as (text & Hrun & _). now exists text.
  - intros e He. unfold extract_text_from_pdf, extract_body. now rewrite He.
  - intros r e Hr He. unfold extract_text_from_pdf, extract_body, collect.
    now rewrite Hr; simpl; rewrite He.
  - apply extract_parsed.
  - intros p e before after Hp.
    pose proof (page_text_raises p e Hp) as Hnil.
    split; [exact Hnil|].
    rewrite (extract_parsed _ _ (Reader (before ++ p :: after) None)) by reflexivity.
    rewrite (extract_parsed _ _ (Reader (before ++ after) None)) by reflexivity.
    simpl. rewrite !map_app, !List.filter_app. simpl. now rewrite Hnil.
Qed.

(** C4, as stated, fails: a page whose text starts with a space. The
    extractor strips the joined text at both ends, so it returns "a" where a
    right trim of the joined page texts keeps " a". *)
Lemma extractor_strips_leading_whitespace :
  extract_text_from_pdf (fun _ => Returns (Reader [Page (Returns (Some (lit " a")))] None)) []
  = Returns (lit "a")
  /\ extract_text_as_specified (Reader [Page (Returns (Some (lit " a")))] None) = lit " a"
  /\ lit "a" <> lit " a".
Proof. repeat split. discriminate. Qed.

Lemma extractor_never_raises_witness :
  extract_text_from_pdf
    (fun _ => Returns (Reader [Page (Returns (Some (lit " first ")));
                               Page (Raises (PyError "PdfReadError"));
                               Page (Returns None);
                               Page (Returns (Some (lit "last ")))] None)) []
  = Returns (lit "first " ++ nl ++ lit "last").
Proof.
  destruct (extractor_never_raises
              (fun _ => Returns (Reader [Page (Returns (Some (lit " first ")));
                                         Page (Raises (PyError "PdfReadError"));
                                         Page (Returns None);
                                         Page (Returns (Some (lit "last ")))] None)) [])
    as (_ & _ & _ & Hparsed & _).
  rewrite (Hparsed _ eq_refl eq_refl). reflexivity.
Defined.

(** ** Object ids *)

Section BsonFacts.

Local Open Scope N_scope.

Lemma hexval_hexdigit d : d < 16 -> hexval (hexdigit d) = Some d.
Proof.
  intros H. unfold hexval, hexdigit.
  destruct (N.ltb_spec d 10) as [Hd|Hd].
  - assert (H1 : (48 <=? 48 + d) && (48 + d <=? 57) = true).
    { apply andb_true_iff. split; apply N.leb_le; lia. }
    rewrite H1. f_equal. lia.
  - assert (H1 : (48 <=? 87 + d) && (87 + d <=? 57) = false).
    { apply andb_false_iff. right. apply N.leb_gt. lia. }
    assert (H2 : (97 <=? 87 + d) && (87 + d <=? 102) = true).
    { apply andb_true_iff. split; apply N.leb_le; lia. }
    rewrite H1, H2. f_equal. lia.
Qed.

Lemma of_hex_app s1 s2 acc :
  of_hex (s1 ++ s2) acc
  = match of_hex s1 acc with Some a => of_hex s2 a | None => None end.
Proof.
  revert acc. induction s1 as [|c s1 IH]; intros acc; simpl; [reflexivity|].
  destruct (hexval c); [apply IH|reflexivity].
Qed.

Lemma length_to_hex k n : length (to_hex k n) = k.
Proof.
  revert n. induction k as [|k IH]; intros n; simpl; [reflexivity|].
  rewrite length_app, IH. simpl. lia.
Qed.

(** Reading back the digits that were printed. *)
Lemma of_hex_to_hex k n acc :
  of_hex (to_hex k n) acc = Some (acc * 16 ^ N.of_nat k + n mod 16 ^ N.of_nat k).
Proof.
  revert n acc. induction k as [|k IH]; intros n acc.
  - simpl. rewrite N.mod_1_r. f_equal. lia.
  - cbn [to_hex]. rewrite of_hex_app, IH. cbn [of_hex].
    rewrite hexval_hexdigit by (apply N.mod_lt; lia).
    f_equal. rewrite Nat2N.inj_succ, N.pow_succ_r'.
    rewrite (N.Div0.mod_mul_r n 16 (16 ^ N.of_nat k)). lia.
Qed.

Lemma make_value o : make (oid_value o) = Some o.
Proof.
  unfold make. destruct o as [v Hv]. simpl.
  destruct (decide (Is_true (in_range v))) as [H|H]; [|contradiction].
  f_equal. f_equal. apply proof_irrel.
Qed.

Lemma oid_value_bound o : oid_value o < 2 ^ 96.
Proof.
  destruct o as [v Hv]. simpl. unfold in_range in Hv.
  apply Is_true_true in Hv. now apply N.ltb_lt.
Qed.

(** [ObjectId(str(o)) == o] *)
Lemma of_str_to_str o : of_str (to_str o) = Returns o.
Proof.
  unfold of_str, to_str. rewrite length_to_hex. simpl Nat.eqb. cbv iota.
  rewrite of_hex_to_hex.
  replace (0 * 16 ^ N.of_nat 24 + oid_value o mod 16 ^ N.of_nat 24) with (oid_value o).
  - now rewrite make_value.
  - rewrite N.mod_small; [lia|].
    pose proof (oid_value_bound o) as Hb.
    replace (16 ^ N.of_nat 24) with (2 ^ 96) by reflexivity. exact Hb.
Qed.

Lemma to_str_nonempty o : nonempty (to_str o) = true.
Proof.
  pose proof (length_to_hex 24 (oid_value o)) as H. unfold to_str.
  destruct (to_hex 24 (oid_value o)); [discriminate|reflexivity].
Qed.

Lemma eqb_refl o : Bson.eqb o o = true.
Proof. unfold Bson.eqb. apply N.eqb_refl. Qed.

Lemma eqb_eq a b : Bson.eqb a b = true -> a = b.
Proof.
  unfold Bson.eqb. intros H%N.eqb_eq.
  destruct a as [x Hx], b as [y Hy]. simpl in H. subst y.
  f_equal. apply proof_irrel.
Qed.

End BsonFacts.

(** ** Running the handlers *)

Section Runs.

Variable E : env.

Lemma the_database_run w d : db w = Some d -> the_database w = (Returns d, w).
Proof. intros H. unfold the_database, bind, get_db, ret. now rewrite H. Qed.

Lemma fs_put_run data fn ct w d :
  db w = Some d ->
  fs_put E data fn ct w
  = match gridfs_put E with
    | Raises e => (Raises e, w)
    | Returns fid =>
        match fs_files d !! oid_value fid with
        | Some _ => (Raises (PyError "FileExists"), w)
        | None => (Returns fid,
                   World (Some (add_file d fid (GridFile data fn ct)))
                     (history w ++ [BlobWrite fid data]))
        end
    end.
Proof.
  intros Hdb. unfold fs_put, bind at 1. rewrite (the_database_run w d Hdb).
  unfold bind, lift, raise, ret, put_database, log.
  destruct (gridfs_put E) as [fid|e]; [|reflexivity].
  destruct (fs_files d !! oid_value fid); reflexivity.
Qed.

Lemma insert_run name record w d :
  db w = Some d ->
  insert E name record w
  = match insert_one E with
    | Raises e => (Raises e, w)
    | Returns did =>
        if existsb (has_id did) (collection d name)
        then (Raises (PyError "DuplicateKeyError"), w)
        else (Returns did,
              World (Some (add_document d name did record))
                (history w ++ [MetadataInsert name did record]))
    end.
Proof.
  intros Hdb. unfold insert, bind at 1. rewrite (the_database_run w d Hdb).
  unfold bind, lift, raise, ret, put_database, log.
  destruct (insert_one E) as [did|e]; [|reflexivity].
  destruct (existsb _ _); reflexivity.
Qed.

(** The OCR client always returns, and leaves one request in the history. *)
Lemma ocr_run file_bytes api_key w :
  ocr_with_ocrspace E file_bytes api_key w
  = (Returns (ocr_result E), World (db w) (history w ++ [OcrRequest file_bytes api_key])).
Proof.
  unfold ocr_with_ocrspace, ocr_result, catch, bind, log, lift, ret.
  destruct (http_post E) as [r|e]; simpl; [|reflexivity].
  destruct (ocr_text_of_response r); reflexivity.
Qed.

Lemma normalise_text (t : str) : (if nonempty t then t else []) = t.
Proof. destruct t; reflexivity. Qed.

(** Lines 127 to 139, by cases. *)
Lemma choose_text_run file_bytes use_ocr ocr_api_key text w :
  choose_text E file_bytes use_ocr ocr_api_key text w
  = if enters_ocr_path use_ocr text then
      match key_supplied ocr_api_key with
      | Some key =>
          (Returns (if nonempty (ocr_result E) then ocr_result E else text,
                    nonempty (ocr_result E)),
           World (db w) (history w ++ [OcrRequest file_bytes key]))
      | None => (Returns (text, false), w)
      end
    else (Returns (text, false), w).
Proof.
  unfold choose_text.
  destruct (enters_ocr_path use_ocr text).
  - destruct (key_supplied ocr_api_key) as [key|].
    + unfold bind at 1. unfold bind at 1. rewrite ocr_run.
      destruct (nonempty (ocr_result E)) eqn:Hne; unfold ret;
        now rewrite normalise_text.
    + unfold bind, ret. now rewrite normalise_text.
  - unfold bind, ret. now rewrite normalise_text.
Qed.

(** Lines 141 to 165, by cases: where the handler stops and what it has
    written by then. *)
Lemma persist_run file file_bytes size text used w d :
  db w = Some d ->
  persist E file file_bytes size text used w
  = match gridfs_put E with
    | Raises e => (Raises e, w)
    | Returns fid =>
        match fs_files d !! oid_value fid with
        | Some _ => (Raises (PyError "FileExists"), w)
        | None =>
            let f := GridFile file_bytes (UploadFile.filename file)
                       (UploadFile.content_type file) in
            let w1 := World (Some (add_file d fid f)) (history w ++ [BlobWrite fid file_bytes]) in
            match DocumentSchema.new (UploadFile.filename file) (UploadFile.content_type file)
                    size text used (to_str fid) with
            | Raises e => (Raises e, w1)
            | Returns doc =>
                match insert_one E with
                | Raises e => (Raises e, w1)
                | Returns did =>
                    if existsb (has_id did) (collection d (lit "document"))
                    then (Raises (PyError "DuplicateKeyError"), w1)
                    else
                      (UploadResponse.new (to_str did) (UploadFile.filename file) size used
                         (preview text),
                       World (Some (add_document (add_file d fid f) (lit "document") did
                                      (DocumentSchema.model_dump doc)))
                         (history w1
                          ++ [MetadataInsert (lit "document") did
                                (DocumentSchema.model_dump doc)]))
                end
            end
        end
    end.
Proof.
  intros Hdb. unfold persist, bind at 1, get_db. rewrite Hdb.
  unfold bind at 1. rewrite (fs_put_run _ _ _ w d Hdb).
  destruct (gridfs_put E) as [fid|e]; [|reflexivity].
  destruct (fs_files d !! oid_value fid); [reflexivity|].
  unfold bind at 1, lift at 1.
  destruct (DocumentSchema.new _ _ _ _ _ _) as [doc|e]; [|reflexivity].
  unfold bind at 1, create_document.
  erewrite insert_run by reflexivity.
  destruct (insert_one E) as [did|e]; [|reflexivity].
  change (collection (add_file d fid _) (lit "document")) with (collection d (lit "document")).
  destruct (existsb _ _); reflexivity.
Qed.

Lemma persist_unconfigured file file_bytes size text used w :
  db w = None ->
  persist E file file_bytes size text used w
  = (Raises (HTTPException 500 (lit "Database not configured")), w).
Proof. intros Hdb. unfold persist, bind, get_db, raise. now rewrite Hdb. Qed.

(** The upload of a PDF: text extraction, the choice of the text, and the
    two writes. *)
Lemma upload_run file use_ocr ocr_api_key w text :
  UploadFile.content_type file = Some pdf_mime ->
  extract_text_from_pdf (PdfReader E) (UploadFile.content file) = Returns text ->
  upload_document E file use_ocr ocr_api_key w
  = let file_bytes := UploadFile.content file in
    let size := Z.of_nat (length file_bytes) in
    if enters_ocr_path use_ocr text then
      match key_supplied ocr_api_key with
      | Some key =>
          persist E file file_bytes size
            (if nonempty (ocr_result E) then ocr_result E else text)
            (nonempty (ocr_result E))
            (World (db w) (history w ++ [OcrRequest file_bytes key]))
      | None => persist E file file_bytes size text false w
      end
    else persist E file file_bytes size text false w.
Proof.
  intros Hct Htext. unfold upload_document.
  rewrite bool_decide_eq_true_2 by assumption. cbn [negb].
  rewrite Htext. unfold bind at 1, lift at 1. unfold bind at 1.
  rewrite choose_text_run.
  destruct (enters_ocr_path use_ocr text); [|reflexivity].
  destruct (key_supplied ocr_api_key); reflexivity.
Qed.

End Runs.

(** ** What an upload does *)

Section UploadFacts.

Variable E : env.

Lemma world_eta w : World (db w) (history w ++ []) = w.
Proof. destruct w. simpl. now rewrite app_nil_r. Qed.

Lemma choose_text_choice file_bytes use_ocr ocr_api_key text w :
  exists final used evs,
    choice E file_bytes use_ocr ocr_api_key text final used evs
    /\ choose_text E file_bytes use_ocr ocr_api_key text w
       = (Returns (final, used), World (db w) (history w ++ evs)).
Proof.
  rewrite choose_text_run.
  destruct (enters_ocr_path use_ocr text) eqn:Hpath.
  - destruct (key_supplied ocr_api_key) as [key|] eqn:Hkey.
    + destruct (nonempty (ocr_result E)) eqn:Hne.
      * exists (ocr_result E), true, [OcrRequest file_bytes key].
        split; [now apply ocr_applied|reflexivity].
      * exists text, false, [OcrRequest file_bytes key].
        split; [apply ocr_empty; auto using nonempty_false|reflexivity].
    + exists text, false, []. rewrite world_eta.
      split; [now apply ocr_without_key|reflexivity].
  - exists text, false, []. rewrite world_eta.
    split; [now apply ocr_not_needed|reflexivity].
Qed.

(** An upload of a PDF is the choice of the text followed by the writes. *)
Lemma upload_pdf file use_ocr ocr_api_key w :
  UploadFile.content_type file = Some pdf_mime ->
  exists text final used evs,
    extract_text_from_pdf (PdfReader E) (UploadFile.content file) = Returns text
    /\ strip text = text
    /\ choice E (UploadFile.content file) use_ocr ocr_api_key text final used evs
    /\ upload_document E file use_ocr ocr_api_key w
       = persist E file (UploadFile.content file)
           (Z.of_nat (length (UploadFile.content file))) final used
           (World (db w) (history w ++ evs)).
Proof.
  intros Hct.
  destruct (extract_total (PdfReader E) (UploadFile.content file)) as (text & Htext & Hstrip).
  destruct (choose_text_choice (UploadFile.content file) use_ocr ocr_api_key text w)
    as (final & used & evs & Hchoice & Hrun).
  exists text, final, used, evs. repeat split; try assumption.
  unfold upload_document.
  rewrite bool_decide_eq_true_2 by assumption. cbn [negb].
  rewrite Htext. unfold bind at 1, lift at 1. unfold bind at 1.
  now rewrite Hrun.
Qed.

Lemma upload_not_pdf file use_ocr ocr_api_key w :
  UploadFile.content_type file <> Some pdf_mime ->
  upload_document E file use_ocr ocr_api_key w
  = (Raises (HTTPException 400 (lit "Only PDF files are supported")), w).
Proof.
  intros Hct. unfold upload_document.
  now rewrite bool_decide_eq_false_2 by assumption.
Qed.

Lemma schema_new_returns filename content_type size text used file_id doc :
  DocumentSchema.new filename content_type size text used file_id = Returns doc ->
  exists f c, filename = Some f /\ content_type = Some c
              /\ doc = DocumentSchema.Make f c size text used file_id.
Proof.
  destruct filename as [f|], content_type as [c|]; simpl; try discriminate.
  intros [= <-]. now exists f, c.
Qed.

(** Where the writes stop. *)
Lemma persist_stages file size text used w d :
  db w = Some d ->
  exists d' evs,
    persisted d file size text used d' evs
    /\ snd (persist E file (UploadFile.content file) size text used w)
       = World (Some d') (history w ++ evs).
Proof.
  intros Hdb. rewrite (persist_run E _ _ _ _ _ w d Hdb).
  assert (Hsame : w = World (Some d) (history w ++ [])).
  { rewrite <- Hdb. symmetry. apply world_eta. }
  destruct (gridfs_put E) as [fid|e];
    [|exists d, []; split; [constructor|simpl; exact Hsame]].
  destruct (fs_files d !! oid_value fid) eqn:Hfresh;
    [exists d, []; split; [constructor|simpl; exact Hsame]|].
  cbv zeta.
  destruct (DocumentSchema.new _ _ _ _ _ _) as [doc|e] eqn:Hdoc;
    [|eexists _, _; split; [apply (blob_written _ _ _ _ _ fid Hfresh)|reflexivity]].
  apply schema_new_returns in Hdoc as (fname & ct & Hname & Hct & ->).
  destruct (insert_one E) as [did|e];
    [|eexists _, _; split; [apply (blob_written _ _ _ _ _ fid Hfresh)|reflexivity]].
  destruct (existsb _ _) eqn:Hdup;
    [eexists _, _; split; [apply (blob_written _ _ _ _ _ fid Hfresh)|reflexivity]|].
  eexists _, _. split.
  - apply (record_written _ _ _ _ _ fid did fname ct Hfresh Hdup Hname Hct).
  - cbn [snd history]. now rewrite <- app_assoc.
Qed.

(** A persist that returns has made both writes. *)
Lemma persist_returns file size text used w resp w' :
  persist E file (UploadFile.content file) size text used w = (Returns resp, w') ->
  exists d file_id doc_id filename content_type,
    db w = Some d
    /\ gridfs_put E = Returns file_id
    /\ insert_one E = Returns doc_id
    /\ fs_files d !! oid_value file_id = None
    /\ existsb (has_id doc_id) (collection d (lit "document")) = false
    /\ UploadFile.filename file = Some filename
    /\ UploadFile.content_type file = Some content_type
    /\ resp = UploadResponse.Make (to_str doc_id) filename size used (preview text)
    /\ w' = World
              (Some (add_document
                       (add_file d file_id
                          (GridFile (UploadFile.content file) (Some filename) (Some content_type)))
                       (lit "document") doc_id
                       (record_of filename content_type size text used file_id)))
              (history w
               ++ [BlobWrite file_id (UploadFile.content file);
                   MetadataInsert (lit "document") doc_id
                     (record_of filename content_type size text used file_id)]).
Proof.
  destruct (db w) as [d|] eqn:Hdb;
    [|rewrite persist_unconfigured by assumption; discriminate].
  rewrite (persist_run E _ _ _ _ _ w d Hdb).
  destruct (gridfs_put E) as [fid|e]; [|discriminate].
  destruct (fs_files d !! oid_value fid) eqn:Hfresh; [discriminate|].
  cbv zeta.
  destruct (DocumentSchema.new _ _ _ _ _ _) as [doc|e] eqn:Hdoc; [|discriminate].
  apply schema_new_returns in Hdoc as (fname & ct & Hname & Hct & ->).
  destruct (insert_one E) as [did|e]; [|discriminate].
  destruct (existsb _ _) eqn:Hdup; [discriminate|].
  rewrite Hname, Hct. cbn [UploadResponse.new history]. intros [= <- <-].
  exists d, fid, did, fname, ct. rewrite <- app_assoc.
  repeat split; assumption || reflexivity.
Qed.

End UploadFacts.

(** ** The records an upload leaves *)

Section Records.

Lemma find_snoc {A} (f : A -> bool) (l : list A) (x : A) :
  existsb f l = false -> f x = true -> List.find f (l ++ [x]) = Some x.
Proof.
  intros Hl Hx. induction l as [|a l IH]; simpl in *.
  - now rewrite Hx.
  - apply orb_false_iff in Hl as [Ha Hl]. rewrite Ha. now apply IH.
Qed.

Lemma collection_add_document (d : database) (name : str) (o : ObjectId) (record : dict) :
  collection (add_document d name o record) name
  = collection d name ++ [<[lit "_id" := VOid o]> record].
Proof. unfold collection at 1, add_document. simpl. now rewrite lookup_insert_eq. Qed.

Lemma has_id_new (o : ObjectId) (record : dict) : has_id o (<[lit "_id" := VOid o]> record) = true.
Proof. unfold has_id. rewrite lookup_insert_eq. apply eqb_refl. Qed.

(** The fields of the record an upload stores. *)
Lemma record_fields (o : ObjectId) (filename content_type : str) (size : Z) (text : str)
    (used : bool) (file_id : ObjectId) :
  let doc := <[lit "_id" := VOid o]> (record_of filename content_type size text used file_id) in
  doc !! lit "filename" = Some (VStr filename)
  /\ doc !! lit "content_type" = Some (VStr content_type)
  /\ doc !! lit "size" = Some (VInt size)
  /\ doc !! lit "extracted_text" = Some (VStr text)
  /\ doc !! lit "ocr_used" = Some (VBool used)
  /\ doc !! lit "file_id" = Some (VStr (to_str file_id)).
Proof. repeat split. Qed.

(** After the second write, [find_one] gives the new record for its id. *)
Lemma stored_record_new (d : database) (o : ObjectId) (record : dict) (hist : list event) :
  existsb (has_id o) (collection d (lit "document")) = false ->
  stored_record (World (Some (add_document d (lit "document") o record)) hist) (to_str o)
  = Some (<[lit "_id" := VOid o]> record).
Proof.
  intros Hnew. unfold stored_record, documents. rewrite of_str_to_str. cbn [db].
  rewrite collection_add_document.
  apply find_snoc; [assumption|apply has_id_new].
Qed.

End Records.

(** ** The upload handler *)

Section UploadProperties.

Variable E : env.

Lemma ocr_requests_app evs evs' :
  ocr_requests (evs ++ evs') = ocr_requests evs ++ ocr_requests evs'.
Proof. apply List.filter_app. Qed.

Lemma persisted_no_ocr d file size text used d' evs :
  persisted d file size text used d' evs -> ocr_requests evs = [].
Proof. intros []; reflexivity. Qed.

(** The two writes make no OCR request. *)
Lemma persist_ocr_requests file size text used w :
  ocr_requests (history (snd (persist E file (UploadFile.content file) size text used w)))
  = ocr_requests (history w).
Proof.
  destruct (db w) as [d|] eqn:Hdb.
  - destruct (persist_stages E file size text used w d Hdb) as (d' & evs & Hst & ->).
    cbn [history]. rewrite ocr_requests_app, (persisted_no_ocr _ _ _ _ _ _ _ Hst).
    apply app_nil_r.
  - now rewrite persist_unconfigured.
Qed.

Lemma persist_flag file size text used w resp w' :
  persist E file (UploadFile.content file) size text used w = (Returns resp, w') ->
  UploadResponse.ocr_used resp = used
  /\ UploadResponse.extracted_text_preview resp = preview text
  /\ stored_field w' (UploadResponse.id resp) "extracted_text" = Some (VStr text)
  /\ stored_field w' (UploadResponse.id resp) "ocr_used" = Some (VBool used).
Proof.
  intros H. apply persist_returns in H
    as (d & fid & did & fname & ct & _ & _ & _ & _ & Hnew & _ & _ & -> & ->).
  cbn [UploadResponse.ocr_used UploadResponse.extracted_text_preview UploadResponse.id].
  unfold stored_field. rewrite stored_record_new by exact Hnew.
  repeat split.
Qed.

Lemma persist_accepts file size text used w :
  storage_accepts E w file -> UploadFile.content_type file = Some pdf_mime ->
  exists resp w', persist E file (UploadFile.content file) size text used w = (Returns resp, w').
Proof.
  intros (d & fid & did & fname & Hdb & Hput & Hfresh & Hins & Hnew & Hname) Hct.
  rewrite (persist_run E _ _ _ _ _ w d Hdb), Hput, Hfresh. cbv zeta.
  rewrite Hname, Hct. cbn [DocumentSchema.new]. rewrite Hins, Hnew.
  cbn [UploadResponse.new]. eauto.
Qed.

Lemma enters_ocr_path_iff use_ocr text :
  strip text = text ->
  enters_ocr_path use_ocr text = true <-> use_ocr = true \/ length text <= 20.
Proof.
  intros Hstrip. unfold enters_ocr_path, text_ok. rewrite Hstrip.
  rewrite orb_true_iff, negb_true_iff, Nat.ltb_ge. reflexivity.
Qed.

End UploadProperties.

(** C3: an upload whose declared content type is not exactly
    [application/pdf] ends with the 400 error and leaves the world as it
    was: no file in GridFS, no record in the collection, no effect in the
    history. *)
Theorem upload_rejects_other_content_types (E : env) (file : UploadFile.t) (use_ocr : bool)
    (ocr_api_key : option str) (w : world) :
  UploadFile.content_type file <> Some pdf_mime ->
  upload_document E file use_ocr ocr_api_key w
  = (Raises (HTTPException 400 (lit "Only PDF files are supported")), w).
Proof. apply upload_not_pdf. Qed.

Lemma upload_rejects_other_content_types_witness :
  upload_document (Examples.env_of [Examples.long_text] []) Examples.notes true
    (Some Examples.api_key) (initial true)
  = (Raises (HTTPException 400 (lit "Only PDF files are supported")), initial true).
Proof.
  apply (upload_rejects_other_content_types
           (Examples.env_of [Examples.long_text] []) Examples.notes true
           (Some Examples.api_key) (initial true)).
  vm_compute. discriminate.
Defined.

(** C1: the OCR path is entered exactly when the caller asked for OCR or the
    native text has at most 20 characters; the OCR client is called exactly
    when the path is entered with a key; and when the native text is longer
    than 20 characters and [use_ocr] is false, no OCR request is made and a
    response has [ocr_used] false. *)
Theorem ocr_path_entered_iff_forced_or_short (E : env) (file : UploadFile.t) (use_ocr : bool)
    (ocr_api_key : option str) (w : world) :
  exists text,
    extract_text_from_pdf (PdfReader E) (UploadFile.content file) = Returns text
    /\ (enters_ocr_path use_ocr text = true <-> use_ocr = true \/ length text <= 20)
    /\ (UploadFile.content_type file = Some pdf_mime ->
        ocr_requests (history (snd (upload_document E file use_ocr ocr_api_key w)))
        = ocr_requests (history w)
          ++ (if enters_ocr_path use_ocr text then
                match key_supplied ocr_api_key with
                | Some key => [OcrRequest (UploadFile.content file) key]
                | None => []
                end
              else []))
    /\ (20 < length text -> use_ocr = false ->
        ocr_requests (history (snd (upload_document E file use_ocr ocr_api_key w)))
        = ocr_requests (history w)
        /\ forall resp,
             fst (upload_document E file use_ocr ocr_api_key w) = Returns resp ->
             UploadResponse.ocr_used resp = false).
Proof.
  destruct (extract_total (PdfReader E) (UploadFile.content file)) as (text & Htext & Hstrip).
  exists text. split; [exact Htext|].
  split; [now apply enters_ocr_path_iff|].
  split.
  - intros Hct. rewrite (upload_run E file use_ocr ocr_api_key w text Hct Htext). cbv zeta.
    destruct (enters_ocr_path use_ocr text).
    + destruct (key_supplied ocr_api_key) as [key|].
      * rewrite persist_ocr_requests. cbn [history]. apply ocr_requests_app.
      * rewrite persist_ocr_requests. now rewrite app_nil_r.
    + rewrite persist_ocr_requests. now rewrite app_nil_r.
  - intros Hlong ->.
    assert (Hpath : enters_ocr_path false text = false).
    { destruct (enters_ocr_path false text) eqn:Hp; [|reflexivity].
      apply enters_ocr_path_iff in Hp as [Hp|Hp]; [discriminate|lia|assumption]. }
    destruct (decide (UploadFile.content_type file = Some pdf_mime)) as [Hct|Hct].
    + rewrite (upload_run E file false ocr_api_key w text Hct Htext). cbv zeta.
      rewrite Hpath. split; [apply persist_ocr_requests|].
      intros resp Hresp.
      destruct (persist E file _ _ text false w) as [r w'] eqn:Hrun.
      cbn [fst] in Hresp. subst r.
      now apply persist_flag in Hrun as (Hflag & _).
    + rewrite upload_not_pdf by assumption. split; [reflexivity|discriminate].
Qed.

Lemma ocr_path_entered_iff_forced_or_short_witness :
  exists text,
    extract_text_from_pdf (Examples.reader_of [Examples.long_text])
      (UploadFile.content Examples.pdf) = Returns text
    /\ length text = 47
    /\ ocr_requests (history (snd (upload_document
                                     (Examples.env_of [Examples.long_text] Examples.scanned_text)
                                     Examples.pdf false (Some Examples.api_key) (initial true))))
       = []
    /\ forall resp,
         fst (upload_document (Examples.env_of [Examples.long_text] Examples.scanned_text)
                Examples.pdf false (Some Examples.api_key) (initial true)) = Returns resp ->
         UploadResponse.ocr_used resp = false.
Proof.
  destruct (ocr_path_entered_iff_forced_or_short
              (Examples.env_of [Examples.long_text] Examples.scanned_text)
              Examples.pdf false (Some Examples.api_key) (initial true))
    as (text & Htext & _ & _ & Hlong).
  exists text. split; [exact Htext|].
  assert (Hlen : length text = 47).
  { vm_compute in Htext. injection Htext as <-. reflexivity. }
  split; [exact Hlen|].
  apply Hlong; [lia|reflexivity].
Defined.

(** C2: on the OCR path (a PDF whose native text is [text]).  Without a key
    the handler goes on to the writes with the native text and the flag
    false, having made no OCR request and raised nothing: the upload returns
    whenever the stores take the writes, and what it stores is the native
    text, even if empty.  With a key, the stored text is the OCR output and
    the flag is true when the client returns a non-empty text, and the stored
    text is the native text and the flag false when it returns the empty
    string. *)
Theorem ocr_path_outcomes (E : env) (file : UploadFile.t) (use_ocr : bool)
    (ocr_api_key : option str) (w : world) (text : str) :
  UploadFile.content_type file = Some pdf_mime ->
  extract_text_from_pdf (PdfReader E) (UploadFile.content file) = Returns text ->
  enters_ocr_path use_ocr text = true ->
  let run := upload_document E file use_ocr ocr_api_key w in
  (key_supplied ocr_api_key = None ->
     run = persist E file (UploadFile.content file)
             (Z.of_nat (length (UploadFile.content file))) text false w
     /\ ocr_requests (history (snd run)) = ocr_requests (history w)
     /\ (storage_accepts E w file -> exists resp w', run = (Returns resp, w'))
     /\ (forall resp w', run = (Returns resp, w') ->
           stored_field w' (UploadResponse.id resp) "extracted_text" = Some (VStr text)
           /\ stored_field w' (UploadResponse.id resp) "ocr_used" = Some (VBool false)
           /\ UploadResponse.ocr_used resp = false))
  /\ (forall key ocr_text,
        key_supplied ocr_api_key = Some key ->
        fst (ocr_with_ocrspace E (UploadFile.content file) key w) = Returns ocr_text ->
        forall resp w', run = (Returns resp, w') ->
          (ocr_text <> [] ->
             stored_field w' (UploadResponse.id resp) "extracted_text" = Some (VStr ocr_text)
             /\ stored_field w' (UploadResponse.id resp) "ocr_used" = Some (VBool true)
             /\ UploadResponse.ocr_used resp = true)
          /\ (ocr_text = [] ->
                stored_field w' (UploadResponse.id resp) "extracted_text" = Some (VStr text)
                /\ stored_field w' (UploadResponse.id resp) "ocr_used" = Some (VBool false)
                /\ UploadResponse.ocr_used resp = false)).
Proof.
  intros Hct Htext Hpath run. subst run.
  rewrite (upload_run E file use_ocr ocr_api_key w text Hct Htext). cbv zeta.
  rewrite Hpath. split.
  - intros ->. split; [reflexivity|].
    split; [apply persist_ocr_requests|].
    split; [intros Hacc; now apply persist_accepts|].
    intros resp w' Hrun.
    apply persist_flag in Hrun as (Hflag & _ & Hstored & Hstored').
    now rewrite Hflag.
  - intros key ocr_text -> Hocr resp w' Hrun.
    rewrite ocr_run in Hocr. cbn [fst] in Hocr. injection Hocr as Hocr.
    apply persist_flag in Hrun as (Hflag & _ & Hstored & Hstored').
    rewrite Hocr in *. split.
    + intros Hne%nonempty_true. rewrite Hne in *. now rewrite Hflag.
    + intros ->. cbn [nonempty] in *. now rewrite Hflag.
Qed.

Lemma ocr_path_outcomes_witness :
  exists resp w',
    upload_document (Examples.env_of [Examples.short_text] Examples.scanned_text)
      Examples.pdf false (Some Examples.api_key) (initial true) = (Returns resp, w')
    /\ stored_field w' (UploadResponse.id resp) "extracted_text"
       = Some (VStr Examples.scanned_text)
    /\ stored_field w' (UploadResponse.id resp) "ocr_used" = Some (VBool true)
    /\ UploadResponse.ocr_used resp = true.
Proof.
  eexists _, _. split; [vm_compute; reflexivity|].
  refine (proj1 (proj2 (ocr_path_outcomes
            (Examples.env_of [Examples.short_text] Examples.scanned_text)
            Examples.pdf false (Some Examples.api_key) (initial true) Examples.short_text
            _ _ _)
          Examples.api_key Examples.scanned_text _ _ _ _ _) _).
  - reflexivity.
  - vm_compute. reflexivity.
  - vm_compute. reflexivity.
  - vm_compute. reflexivity.
  - vm_compute. reflexivity.
  - vm_compute. reflexivity.
  - vm_compute. discriminate.
Defined.

(** C5: the preview of a successful upload is made from the text the upload
    stored: its first 300 characters followed by "..." when the text is
    longer than 300 characters, and the text itself otherwise. *)
Theorem upload_preview_truncates_at_300 (E : env) (file : UploadFile.t) (use_ocr : bool)
    (ocr_api_key : option str) (w w' : world) (resp : UploadResponse.t) :
  upload_document E file use_ocr ocr_api_key w = (Returns resp, w') ->
  exists text,
    stored_field w' (UploadResponse.id resp) "extracted_text" = Some (VStr text)
    /\ (300 < length text ->
        UploadResponse.extracted_text_preview resp = firstn 300 text ++ lit "...")
    /\ (length text <= 300 -> UploadResponse.extracted_text_preview resp = text).
Proof.
  intros Hrun.
  destruct (decide (UploadFile.content_type file = Some pdf_mime)) as [Hct|Hct];
    [|rewrite upload_not_pdf in Hrun by assumption; discriminate].
  destruct (upload_pdf E file use_ocr ocr_api_key w Hct)
    as (text & final & used & evs & _ & _ & _ & Heq).
  rewrite Heq in Hrun.
  apply persist_flag in Hrun as (_ & Hprev & Hstored & _).
  exists final. split; [exact Hstored|]. rewrite Hprev. unfold preview. split.
  - intros Hlong. destruct final; [simpl in Hlong; lia|].
    cbn [nonempty]. now apply truncate_long.
  - intros Hshort. destruct final; [reflexivity|].
    cbn [nonempty]. now apply truncate_short.
Qed.

Lemma upload_preview_truncates_at_300_witness :
  exists text,
    stored_field
      (snd (upload_document (Examples.env_of Examples.long_pages []) Examples.pdf false None
              (initial true)))
      (to_str Examples.doc_oid) "extracted_text" = Some (VStr text)
    /\ 300 < length text
    /\ firstn 300 Examples.long_report ++ lit "..." = firstn 300 text ++ lit "...".
Proof.
  destruct (upload_preview_truncates_at_300
              (Examples.env_of Examples.long_pages []) Examples.pdf false None (initial true)
              (snd (upload_document (Examples.env_of Examples.long_pages []) Examples.pdf
                      false None (initial true)))
              (UploadResponse.Make (to_str Examples.doc_oid) (lit "report.pdf") 4 false
                 (firstn 300 Examples.long_report ++ lit "...")))
    as (text & Hstored & Hlong & _).
  - vm_compute. reflexivity.
  - exists text. split; [exact Hstored|].
    assert (Hlen : 300 < length text).
    { vm_compute in Hstored. injection Hstored as <-.
      apply Nat.ltb_lt. vm_compute. reflexivity. }
    split; [exact Hlen|exact (Hlong Hlen)].
Defined.

(** ** The list handler *)

Ltac distinct_keys := let H := fresh in intros H; vm_compute in H; discriminate H.

Lemma serialize_text (doc : dict) (txt : str) :
  doc !! lit "extracted_text" = Some (VStr txt) ->
  serialize doc !! lit "extracted_text" = None
  /\ serialize doc !! lit "extracted_text_preview" = Some (VStr (truncate 200 txt)).
Proof.
  intros Htxt. unfold serialize. cbv zeta.
  rewrite !lookup_insert_ne by distinct_keys. rewrite Htxt.
  rewrite lookup_delete_eq. split; [reflexivity|].
  rewrite lookup_delete_ne by distinct_keys. apply lookup_insert_eq.
Qed.

(** ** The download handler *)

Section DownloadFacts.

Variable E : env.

Lemma fs_get_run (file_id : ObjectId) w d :
  db w = Some d ->
  fs_get E file_id w
  = (match gridfs_get_raises E with
     | Some e => Raises e
     | None =>
         match fs_files d !! oid_value file_id with
         | Some f => Returns f
         | None => Raises (PyError "NoFile")
         end
     end, w).
Proof.
  intros Hdb. unfold fs_get, bind. rewrite (the_database_run w d Hdb).
  destruct (gridfs_get_raises E); [reflexivity|].
  destruct (fs_files d !! oid_value file_id); reflexivity.
Qed.

Lemma find_one_run (name : str) (o : ObjectId) w d :
  db w = Some d ->
  find_one E name o w
  = (match find_raises E with
     | Some e => Raises e
     | None => Returns (List.find (has_id o) (collection d name))
     end, w).
Proof.
  intros Hdb. unfold find_one, bind. rewrite (the_database_run w d Hdb).
  destruct (find_raises E); reflexivity.
Qed.

(** The download, by cases, when a database is configured: the world is left
    as it was, and every failure ends in the same error. *)
Lemma download_run (doc_id : str) w d :
  db w = Some d ->
  download_document E doc_id w
  = (match of_str doc_id with
     | Raises _ => Raises not_found
     | Returns oid =>
         match find_raises E with
         | Some _ => Raises not_found
         | None =>
             match List.find (has_id oid) (collection d (lit "document")) with
             | None => Raises not_found
             | Some doc =>
                 if (size doc =? 0)%nat || negb (truthy (get doc "file_id"))
                 then Raises not_found
                 else
                   match ObjectId_of (get doc "file_id") with
                   | Raises _ => Raises not_found
                   | Returns fid =>
                       match gridfs_get_raises E with
                       | Some _ => Raises not_found
                       | None =>
                           match fs_files d !! oid_value fid with
                           | None => Raises not_found
                           | Some f =>
                               match StreamingResponse_new (gf_data f)
                                       (get_or doc "content_type" (VStr pdf_mime))
                                       (lit "attachment; filename="
                                        ++ py_str (get_or doc "filename"
                                                     (VStr (lit "document.pdf")))) with
                               | Returns r => Returns r
                               | Raises _ => Raises not_found
                               end
                           end
                       end
                   end
             end
         end
     end, w).
Proof.
  intros Hdb. unfold download_document, bind at 1, get_db. rewrite Hdb.
  unfold catch, bind at 1, lift at 1. cbn [ObjectId_of].
  destruct (of_str doc_id) as [oid|e]; [|reflexivity].
  unfold bind at 1. rewrite (find_one_run _ oid w d Hdb).
  destruct (find_raises E); [reflexivity|].
  destruct (List.find _ _) as [doc|]; [|reflexivity].
  cbn [no_doc]. change (default _ (Some doc)) with doc.
  destruct ((size doc =? 0)%nat || negb (truthy (get doc "file_id"))); [reflexivity|].
  unfold bind at 1, lift at 1.
  destruct (ObjectId_of (get doc "file_id")) as [fid|e]; [|reflexivity].
  unfold bind at 1. rewrite (fs_get_run fid w d Hdb).
  destruct (gridfs_get_raises E); [reflexivity|].
  destruct (fs_files d !! oid_value fid); [|reflexivity].
  unfold lift. now destruct (StreamingResponse_new _ _ _).
Qed.

Lemma download_unconfigured (doc_id : str) w :
  db w = None ->
  download_document E doc_id w
  = (Raises (HTTPException 500 (lit "Database not configured")), w).
Proof. intros Hdb. unfold download_document, bind, get_db, raise. now rewrite Hdb. Qed.

(** An empty record has no blob reference either. *)
Lemma empty_doc_has_no_reference (doc : dict) :
  (size doc =? 0)%nat || negb (truthy (get doc "file_id")) = true ->
  truthy (get doc "file_id") = false.
Proof.
  intros [Hsize|Href]%orb_true_iff.
  - apply Nat.eqb_eq, map_size_empty_inv in Hsize. subst doc.
    unfold get. now rewrite lookup_empty.
  - now apply negb_true_iff.
Qed.

Lemma download_failure (doc_id : str) w d :
  db w = Some d ->
  resolution_failure E w doc_id ->
  download_document E doc_id w = (Raises not_found, w).
Proof.
  intros Hdb Hfail. rewrite (download_run doc_id w d Hdb).
  assert (Hdocs : documents w = collection d (lit "document"))
    by (unfold documents; now rewrite Hdb).
  assert (Hfiles : files w = fs_files d) by (unfold files; now rewrite Hdb).
  destruct Hfail as [e He|o e Ho He|o Ho Hnone|o doc Ho Hdoc Href|o doc e Ho Hdoc Hbad
                    |o doc e Ho Hdoc Hget|o doc fid Ho Hdoc Hfid Hmiss];
    try rewrite Hdocs in *; try rewrite Hfiles in *.
  - now rewrite He.
  - now rewrite Ho, He.
  - rewrite Ho, Hnone. now destruct (find_raises E).
  - rewrite Ho, Hdoc, Href, orb_true_r. now destruct (find_raises E).
  - rewrite Ho, Hdoc, Hbad. destruct (find_raises E); [reflexivity|].
    now destruct (_ || _).
  - rewrite Ho, Hdoc, Hget. destruct (find_raises E); [reflexivity|].
    destruct (_ || _); [reflexivity|].
    now destruct (ObjectId_of _).
  - rewrite Ho, Hdoc, Hfid, Hmiss. destruct (find_raises E); [reflexivity|].
    destruct (_ || _); [reflexivity|].
    now destruct (gridfs_get_raises E).
Qed.

Lemma download_raises (doc_id : str) w d e w' :
  db w = Some d ->
  download_document E doc_id w = (Raises e, w') ->
  e = not_found /\ w' = w.
Proof.
  intros Hdb. rewrite (download_run doc_id w d Hdb).
  destruct (of_str doc_id) as [o|e0]; [|now intros [= <- <-]].
  destruct (find_raises E) as [e0|]; [now intros [= <- <-]|].
  destruct (List.find _ _) as [doc|]; [|now intros [= <- <-]].
  destruct (_ || _); [now intros [= <- <-]|].
  destruct (ObjectId_of _) as [fid|e0]; [|now intros [= <- <-]].
  destruct (gridfs_get_raises E) as [e0|]; [now intros [= <- <-]|].
  destruct (fs_files d !! oid_value fid); [|now intros [= <- <-]].
  destruct (StreamingResponse_new _ _ _); [discriminate|now intros [= <- <-]].
Qed.

End DownloadFacts.

(** C7, as amended: without a database the handler answers 500 before it
    looks at the identifier; with one, a download that does not resolve for
    any of the causes ends in the one 404 error, every error of the handler
    is that error, and the world is left as it was. *)
Theorem download_failures_are_not_found (E : env) (doc_id : str) (w : world) :
  (db w = None ->
     download_document E doc_id w
     = (Raises (HTTPException 500 (lit "Database not configured")), w))
  /\ (db w <> None ->
        (resolution_failure E w doc_id ->
           download_document E doc_id w = (Raises not_found, w))
        /\ (forall e w', download_document E doc_id w = (Raises e, w') ->
              e = not_found /\ w' = w)).
Proof.
  split; [apply download_unconfigured|].
  destruct (db w) as [d|] eqn:Hdb; [intros _|congruence].
  split.
  - now apply (download_failure E doc_id w d).
  - intros e w'. now apply (download_raises E doc_id w d).
Qed.

Lemma download_failures_are_not_found_witness :
  download_document (Examples.env_of [] []) (lit "not-an-id") Examples.after_upload
  = (Raises not_found, Examples.after_upload)
  /\ download_document (Examples.env_of [] []) (to_str Examples.file_oid) Examples.after_upload
     = (Raises not_found, Examples.after_upload).
Proof.
  split.
  - apply (download_failures_are_not_found (Examples.env_of [] []) (lit "not-an-id")
             Examples.after_upload).
    + vm_compute. discriminate.
    + apply (bad_identifier _ _ _ (PyError "InvalidId")). vm_compute. reflexivity.
  - apply (download_failures_are_not_found (Examples.env_of [] []) (to_str Examples.file_oid)
             Examples.after_upload).
    + vm_compute. discriminate.
    + apply (record_missing _ _ _ Examples.file_oid); vm_compute; reflexivity.
Defined.

(** C7, as stated, fails: with no database configured, a download with an
    identifier that is not a well-formed id ends in the 500 error, not in
    the 404 one. *)
Lemma download_without_database_is_a_server_error :
  resolution_failure (Examples.env_of [] []) (initial false) (lit "not-an-id")
  /\ download_document (Examples.env_of [] []) (lit "not-an-id") (initial false)
     = (Raises (HTTPException 500 (lit "Database not configured")), initial false)
  /\ HTTPException 500 (lit "Database not configured") <> not_found.
Proof.
  split; [|split].
  - apply (bad_identifier _ _ _ (PyError "InvalidId")). reflexivity.
  - reflexivity.
  - discriminate.
Qed.

(** ** Upload, then download *)

Section RoundTrip.

Lemma new_record_not_empty (o : ObjectId) (record : dict) :
  (size (<[lit "_id" := VOid o]> record) =? 0)%nat = false.
Proof.
  apply Nat.eqb_neq. intros Hsize%map_size_empty_inv.
  apply (f_equal (fun m : dict => m !! lit "_id")) in Hsize.
  rewrite lookup_insert_eq, lookup_empty in Hsize. discriminate.
Qed.

(** A response that was built holds what the constructor was given. *)
Lemma StreamingResponse_new_returns (content : bytes) (media : value) (disposition : str)
    (r : StreamingResponse) :
  StreamingResponse_new content media disposition = Returns r ->
  r = {| body := content; media_type := media;
         headers := [(lit "Content-Disposition", disposition)] |}.
Proof.
  unfold StreamingResponse_new.
  destruct (latin1 disposition); [|discriminate].
  destruct media as [| | | s |]; try discriminate.
  - now intros [= <-].
  - destruct (latin1 s); [|discriminate]. now intros [= <-].
Qed.

(** The response for a PDF is built exactly when the file name is latin-1. *)
Lemma StreamingResponse_new_pdf (content : bytes) (filename : str) :
  StreamingResponse_new content (VStr pdf_mime) (lit "attachment; filename=" ++ filename)
  = if latin1 filename
    then Returns {| body := content; media_type := VStr pdf_mime;
                    headers := [(lit "Content-Disposition",
                                 lit "attachment; filename=" ++ filename)] |}
    else Raises (PyError "UnicodeEncodeError").
Proof.
  unfold StreamingResponse_new.
  assert (Hname : latin1 (lit "attachment; filename=" ++ filename) = latin1 filename).
  { unfold latin1. now rewrite forallb_app. }
  assert (Hmime : latin1 pdf_mime = true) by reflexivity.
  rewrite Hname, Hmime. reflexivity.
Qed.

(** The download of the record an upload has just stored. *)
Lemma download_new_record (E : env) (d : database) (file_id doc_id : ObjectId)
    (f : gridfile) (filename : str) (size : Z) (text : str) (used : bool)
    (hist : list event) :
  find_raises E = None -> gridfs_get_raises E = None ->
  existsb (has_id doc_id) (collection d (lit "document")) = false ->
  let w := World (Some (add_document (add_file d file_id f) (lit "document") doc_id
                          (record_of filename pdf_mime size text used file_id))) hist in
  download_document E (to_str doc_id) w
  = (if latin1 filename
     then Returns {| body := gf_data f; media_type := VStr pdf_mime;
                     headers := [(lit "Content-Disposition",
                                  lit "attachment; filename=" ++ filename)] |}
     else Raises not_found, w).
Proof.
  intros Hfind Hget Hnew w.
  rewrite (download_run E (to_str doc_id) w _ eq_refl).
  rewrite of_str_to_str, Hfind, collection_add_document.
  change (collection (add_file d file_id f) (lit "document"))
    with (collection d (lit "document")).
  rewrite (find_snoc _ _ _ Hnew (has_id_new doc_id _)).
  rewrite new_record_not_empty.
  destruct (record_fields doc_id filename pdf_mime size text used file_id)
    as (Hname & Hct & _ & _ & _ & Hfid).
  unfold get, get_or. rewrite Hfid, Hct, Hname.
  cbn [default from_option id truthy ObjectId_of py_str].
  rewrite to_str_nonempty, of_str_to_str, Hget. cbn [negb orb].
  cbn [add_document add_file fs_files]. rewrite lookup_insert_eq.
  rewrite StreamingResponse_new_pdf. now destruct (latin1 filename).
Qed.

Lemma stored_record_none (E : env) (w : world) (doc_id : str) :
  stored_record w doc_id = None -> resolution_failure E w doc_id.
Proof.
  unfold stored_record. destruct (of_str doc_id) as [o|e] eqn:Ho.
  - intros Hnone. now apply (record_missing E w doc_id o).
  - intros _. now apply (bad_identifier E w doc_id e).
Qed.

End RoundTrip.

(** C8 does not hold of the code for every upload.  After a successful
    upload, and while the stores answer, the download of the identifier the
    upload returned gives back the bytes that were uploaded, as
    [application/pdf], when the name of the uploaded file is latin-1; when
    it is not, the response's header cannot be encoded, the handler's
    [except] catches that, and the download ends in the 404 error, although
    the record and the blob are both there.  In that world the download of
    an identifier under which there is no record ends in the 404 error.  A
    download leaves the world as it was. *)
Theorem download_after_upload (E : env) (file : UploadFile.t) (use_ocr : bool)
    (ocr_api_key : option str) (w w' : world) (resp : UploadResponse.t) :
  upload_document E file use_ocr ocr_api_key w = (Returns resp, w') ->
  UploadFile.filename file = Some (UploadResponse.filename resp)
  /\ stored_record w' (UploadResponse.id resp) <> None
  /\ (forall E', find_raises E' = None -> gridfs_get_raises E' = None ->
        download_document E' (UploadResponse.id resp) w'
        = (if latin1 (UploadResponse.filename resp)
           then Returns {| body := UploadFile.content file;
                           media_type := VStr pdf_mime;
                           headers := [(lit "Content-Disposition",
                                        lit "attachment; filename="
                                        ++ UploadResponse.filename resp)] |}
           else Raises not_found, w'))
  /\ (forall E' doc_id,
        stored_record w' doc_id = None ->
        download_document E' doc_id w' = (Raises not_found, w')).
Proof.
  intros Hrun.
  destruct (decide (UploadFile.content_type file = Some pdf_mime)) as [Hct|Hct];
    [|rewrite upload_not_pdf in Hrun by assumption; discriminate].
  destruct (upload_pdf E file use_ocr ocr_api_key w Hct)
    as (text & final & used & evs & _ & _ & _ & Heq).
  rewrite Heq in Hrun.
  apply persist_returns in Hrun
    as (d & fid & did & fname & ct & _ & _ & _ & _ & Hnew & Hname & Hct' & -> & ->).
  assert (ct = pdf_mime) as -> by congruence.
  cbn [UploadResponse.id UploadResponse.filename].
  split; [exact Hname|]. split; [|split].
  - rewrite stored_record_new by exact Hnew. discriminate.
  - intros E' Hfind Hget.
    exact (download_new_record E' d fid did
             (GridFile (UploadFile.content file) (Some fname) (Some pdf_mime))
             fname (Z.of_nat (length (UploadFile.content file))) final used
             (history (World (db w) (history w ++ evs))
              ++ [BlobWrite fid (UploadFile.content file);
                  MetadataInsert (lit "document") did
                    (record_of fname pdf_mime
                       (Z.of_nat (length (UploadFile.content file))) final used fid)])
             Hfind Hget Hnew).
  - intros E' doc_id Hnone.
    eapply download_failure; [reflexivity|].
    now apply stored_record_none.
Qed.

(** The upload of a PDF named U+62A5 U+544A [.pdf] succeeds, and the
    download of the identifier it returned is the 404 error. *)
Lemma download_after_upload_witness :
  upload_document (Examples.env_of [Examples.long_text] []) Examples.wide_pdf false None
    (initial true)
  = (Returns (UploadResponse.Make (to_str Examples.doc_oid)
                ([25253%N; 21578%N] ++ lit ".pdf") 4 false Examples.long_text),
     Examples.after_wide_upload)
  /\ stored_record Examples.after_wide_upload (to_str Examples.doc_oid) <> None
  /\ download_document (Examples.env_of [] []) (to_str Examples.doc_oid)
       Examples.after_wide_upload
     = (Raises not_found, Examples.after_wide_upload).
Proof.
  assert (Hrun : upload_document (Examples.env_of [Examples.long_text] []) Examples.wide_pdf
                   false None (initial true)
                 = (Returns (UploadResponse.Make (to_str Examples.doc_oid)
                               ([25253%N; 21578%N] ++ lit ".pdf") 4 false
                               Examples.long_text),
                    Examples.after_wide_upload)).
  { vm_compute. reflexivity. }
  split; [exact Hrun|].
  destruct (download_after_upload _ _ _ _ _ _ _ Hrun) as (_ & Hrecord & Hback & _).
  split; [exact Hrecord|].
  exact (Hback (Examples.env_of [] []) eq_refl eq_refl).
Defined.

(** ** The order of the two writes *)

Section Writes.

Variable E : env.

(** A metadata insert among the writes of one upload comes after the write
    of the blob its record names, and that blob is in GridFS. *)
Lemma persisted_order d file size text used d' writes :
  persisted d file size text used d' writes ->
  forall pre name doc_id record post,
    writes = pre ++ MetadataInsert name doc_id record :: post ->
    exists file_id,
      In (BlobWrite file_id (UploadFile.content file)) pre
      /\ record !! lit "file_id" = Some (VStr (to_str file_id))
      /\ exists f, fs_files d' !! oid_value file_id = Some f
                   /\ gf_data f = UploadFile.content file.
Proof.
  intros [|fid Hfresh|fid did fname ct Hfresh Hnew Hname Hct] pre name doc_id record post Heq.
  - now destruct pre.
  - destruct pre as [|? [|? ?]]; discriminate.
  - destruct pre as [|a [|b pre]]; [discriminate| |].
    + injection Heq as <- _ _ <- _. exists fid.
      split; [now left|]. split; [reflexivity|].
      eexists. cbn [add_document add_file fs_files]. rewrite lookup_insert_eq.
      split; reflexivity.
    + injection Heq as _ _ Heq. now destruct pre.
Qed.

Lemma choice_events file_bytes use_ocr ocr_api_key text final used evs :
  choice E file_bytes use_ocr ocr_api_key text final used evs ->
  evs = [] \/ exists key, evs = [OcrRequest file_bytes key].
Proof. intros []; eauto. Qed.

(** What an upload adds to the history, and the database it leaves. *)
Lemma upload_effects file use_ocr ocr_api_key w d :
  db w = Some d ->
  exists ocr d' writes text used,
    snd (upload_document E file use_ocr ocr_api_key w)
    = World (Some d') (history w ++ ocr ++ writes)
    /\ (ocr = [] \/ exists key, ocr = [OcrRequest (UploadFile.content file) key])
    /\ persisted d file (Z.of_nat (length (UploadFile.content file))) text used d' writes.
Proof.
  intros Hdb.
  destruct (decide (UploadFile.content_type file = Some pdf_mime)) as [Hct|Hct].
  - destruct (upload_pdf E file use_ocr ocr_api_key w Hct)
      as (text & final & used & evs & _ & _ & Hchoice & ->).
    destruct (persist_stages E file (Z.of_nat (length (UploadFile.content file))) final used
                (World (db w) (history w ++ evs)) d Hdb) as (d' & writes & Hst & ->).
    exists evs, d', writes, final, used. cbn [history]. rewrite <- app_assoc.
    split; [reflexivity|]. split; [|exact Hst].
    exact (choice_events _ _ _ _ _ _ _ Hchoice).
  - rewrite upload_not_pdf by assumption.
    exists [], d, [], [], false. cbn [snd]. rewrite !app_nil_r.
    split; [destruct w; simpl in *; congruence|].
    split; [now left|constructor].
Qed.

Lemma upload_unconfigured file use_ocr ocr_api_key w :
  db w = None ->
  db (snd (upload_document E file use_ocr ocr_api_key w)) = None.
Proof.
  intros Hdb.
  destruct (decide (UploadFile.content_type file = Some pdf_mime)) as [Hct|Hct].
  - destruct (upload_pdf E file use_ocr ocr_api_key w Hct)
      as (text & final & used & evs & _ & _ & _ & ->).
    now rewrite persist_unconfigured.
  - now rewrite upload_not_pdf.
Qed.

Lemma list_world limit w : snd (list_documents E limit w) = w.
Proof.
  unfold list_documents, get_documents, the_database.
  unfold bind, get_db, ret, raise.
  destruct (db w); [|reflexivity].
  now destruct (find_raises E).
Qed.

Lemma download_world doc_id w : snd (download_document E doc_id w) = w.
Proof.
  destruct (db w) as [d|] eqn:Hdb.
  - now rewrite (download_run E doc_id w d Hdb).
  - now rewrite download_unconfigured.
Qed.

(** A record keeps its blob when the history and GridFS only grow. *)
Lemma refers_mono w d d' hist doc :
  db w = Some d ->
  (forall k f, fs_files d !! k = Some f -> fs_files d' !! k = Some f) ->
  (forall e, In e (history w) -> In e hist) ->
  refers_to_written_blob w doc ->
  refers_to_written_blob (World (Some d') hist) doc.
Proof.
  intros Hdb Hfiles Hhist (fid & data & Hfield & Hin & d0 & f & Hdb0 & Hfile & Hdata).
  rewrite Hdb in Hdb0. injection Hdb0 as <-.
  exists fid, data. split; [exact Hfield|]. split; [now apply Hhist|].
  exists d', f. cbn [db]. auto.
Qed.

Lemma persisted_consistent w d file size text used d' writes ocr :
  db w = Some d ->
  persisted d file size text used d' writes ->
  consistent w ->
  consistent (World (Some d') (history w ++ ocr ++ writes)).
Proof.
  intros Hdb Hst Hcons.
  assert (Hdocs : documents w = collection d (lit "document"))
    by (unfold documents; now rewrite Hdb).
  assert (Hhist : forall evs e, In e (history w) -> In e (history w ++ evs))
    by (intros evs e He; apply in_or_app; now left).
  destruct Hst as [|fid Hfresh|fid did fname ct Hfresh Hnew Hname Hct].
  - intros doc Hdoc. apply (refers_mono w d); auto.
    apply Hcons. rewrite Hdocs. exact Hdoc.
  - intros doc Hdoc.
    apply (refers_mono w d); auto; [|apply Hcons; rewrite Hdocs; exact Hdoc].
    intros k f Hk. cbn [add_file fs_files].
    rewrite lookup_insert_ne; [exact Hk|]. intros <-. congruence.
  - intros doc Hdoc. unfold documents in Hdoc. cbn [db] in Hdoc.
    rewrite collection_add_document in Hdoc.
    change (collection (add_file d fid _) (lit "document"))
      with (collection d (lit "document")) in Hdoc.
    apply in_app_or in Hdoc as [Hold|[<-|[]]].
    + apply (refers_mono w d); auto; [|apply Hcons; now rewrite Hdocs].
      intros k f Hk. cbn [add_document add_file fs_files].
      rewrite lookup_insert_ne; [exact Hk|]. intros <-. congruence.
    + exists fid, (UploadFile.content file).
      split; [reflexivity|]. cbn [history db].
      split; [apply in_or_app; right; apply in_or_app; right; now left|].
      eexists _, _. split; [reflexivity|].
      cbn [add_document add_file fs_files]. rewrite lookup_insert_eq.
      split; reflexivity.
Qed.

Lemma handle_consistent r w : consistent w -> consistent (handle E r w).
Proof.
  intros Hcons. destruct r as [file use_ocr ocr_api_key|limit|doc_id]; cbn [handle].
  - destruct (db w) as [d|] eqn:Hdb.
    + destruct (upload_effects file use_ocr ocr_api_key w d Hdb)
        as (ocr & d' & writes & text & used & -> & _ & Hst).
      now apply (persisted_consistent w d file
                   (Z.of_nat (length (UploadFile.content file))) text used).
    + intros doc Hdoc. unfold documents in Hdoc.
      now rewrite upload_unconfigured in Hdoc.
  - now rewrite list_world.
  - now rewrite download_world.
Qed.

End Writes.

Lemma reachable_consistent w : reachable w -> consistent w.
Proof.
  induction 1 as [configured|E r w _ IH].
  - intros doc Hdoc. destruct configured; destruct Hdoc.
  - now apply handle_consistent.
Qed.

Section WriteOrder.

Variable E : env.

Lemma upload_writes_blob file use_ocr ocr_api_key w d file_id :
  UploadFile.content_type file = Some pdf_mime ->
  db w = Some d ->
  gridfs_put E = Returns file_id ->
  fs_files d !! oid_value file_id = None ->
  In (BlobWrite file_id (UploadFile.content file))
     (history (snd (upload_document E file use_ocr ocr_api_key w)))
  /\ exists f,
       files (snd (upload_document E file use_ocr ocr_api_key w)) !! oid_value file_id = Some f
       /\ gf_data f = UploadFile.content file.
Proof.
  intros Hct Hdb Hput Hfresh.
  destruct (upload_pdf E file use_ocr ocr_api_key w Hct)
    as (text & final & used & evs & _ & _ & _ & ->).
  rewrite (persist_run E _ _ _ _ _ (World (db w) (history w ++ evs)) d Hdb).
  rewrite Hput, Hfresh. cbv zeta.
  assert (Hin : forall hist tail,
             In (BlobWrite file_id (UploadFile.content file))
                ((hist ++ [BlobWrite file_id (UploadFile.content file)]) ++ tail)).
  { intros hist tail. apply in_or_app. left. apply in_or_app. right. now left. }
  assert (Hin' : forall hist,
             In (BlobWrite file_id (UploadFile.content file))
                (hist ++ [BlobWrite file_id (UploadFile.content file)])).
  { intros hist. apply in_or_app. right. now left. }
  assert (Hfile : forall cols : gmap N gridfile,
             exists f,
               <[oid_value file_id :=
                   GridFile (UploadFile.content file) (UploadFile.filename file)
                     (UploadFile.content_type file)]> cols !! oid_value file_id = Some f
               /\ gf_data f = UploadFile.content file).
  { intros cols. eexists. rewrite lookup_insert_eq. split; reflexivity. }
  destruct (DocumentSchema.new _ _ _ _ _ _) as [doc|e];
    [destruct (insert_one E) as [did|e]; [destruct (existsb _ _)|]|];
    (split;
     [cbn [snd history]; first [apply Hin'|apply Hin]
     |unfold files; cbn [snd db add_document add_file fs_files]; apply Hfile]).
Qed.

Lemma upload_unconfigured_history file use_ocr ocr_api_key w :
  db w = None ->
  exists ocr,
    history (snd (upload_document E file use_ocr ocr_api_key w)) = history w ++ ocr
    /\ (ocr = [] \/ exists key, ocr = [OcrRequest (UploadFile.content file) key]).
Proof.
  intros Hdb.
  destruct (decide (UploadFile.content_type file = Some pdf_mime)) as [Hct|Hct].
  - destruct (upload_pdf E file use_ocr ocr_api_key w Hct)
      as (text & final & used & evs & _ & _ & Hchoice & ->).
    rewrite persist_unconfigured by assumption.
    exists evs. split; [reflexivity|].
    exact (choice_events _ _ _ _ _ _ _ _ Hchoice).
  - rewrite upload_not_pdf by assumption.
    exists []. rewrite app_nil_r. split; [reflexivity|now left].
Qed.

Lemma upload_insert_after_blob file use_ocr ocr_api_key w pre name doc_id record post :
  history (snd (upload_document E file use_ocr ocr_api_key w))
  = history w ++ pre ++ MetadataInsert name doc_id record :: post ->
  exists file_id,
    In (BlobWrite file_id (UploadFile.content file)) pre
    /\ record !! lit "file_id" = Some (VStr (to_str file_id))
    /\ exists f,
         files (snd (upload_document E file use_ocr ocr_api_key w)) !! oid_value file_id
         = Some f
         /\ gf_data f = UploadFile.content file.
Proof.
  destruct (db w) as [d|] eqn:Hdb.
  - destruct (upload_effects E file use_ocr ocr_api_key w d Hdb)
      as (ocr & d' & writes & text & used & -> & Hocr & Hst).
    cbn [history snd]. intros Heq%app_inv_head.
    unfold files. cbn [db].
    destruct Hocr as [->|[key ->]].
    + apply (persisted_order _ _ _ _ _ _ _ Hst _ _ _ _ _ Heq).
    + destruct pre as [|a pre]; [discriminate|].
      injection Heq as _ Heq.
      destruct (persisted_order _ _ _ _ _ _ _ Hst _ _ _ _ _ Heq)
        as (fid & Hin & Hrest).
      exists fid. split; [now right|exact Hrest].
  - destruct (upload_unconfigured_history file use_ocr ocr_api_key w Hdb)
      as (ocr & -> & Hocr).
    intros Heq%app_inv_head.
    destruct Hocr as [->|[key ->]].
    + now destruct pre.
    + destruct pre as [|a [|b pre]]; discriminate.
Qed.

End WriteOrder.

(** ** The records of a reachable state *)

Section StoredRecords.

Lemma persisted_documents d file size text used d' writes :
  persisted d file size text used d' writes ->
  forall doc, In doc (collection d' (lit "document")) ->
    In doc (collection d (lit "document")) \/ has_text doc.
Proof.
  intros [|fid Hfresh|fid did fname ct Hfresh Hnew Hname Hct] doc Hdoc.
  - now left.
  - now left.
  - rewrite collection_add_document in Hdoc.
    apply in_app_or in Hdoc as [Hold|[<-|[]]]; [now left|right].
    now exists text.
Qed.

Lemma handle_has_text E r w :
  (forall doc, In doc (documents w) -> has_text doc) ->
  forall doc, In doc (documents (handle E r w)) -> has_text doc.
Proof.
  intros Hall doc. destruct r as [file use_ocr ocr_api_key|limit|doc_id]; cbn [handle].
  - destruct (db w) as [d|] eqn:Hdb.
    + destruct (upload_effects E file use_ocr ocr_api_key w d Hdb)
        as (ocr & d' & writes & text & used & -> & _ & Hst).
      unfold documents at 1. cbn [db]. intros Hdoc.
      apply (persisted_documents _ _ _ _ _ _ _ Hst) in Hdoc as [Hold|Hnew]; [|exact Hnew].
      apply Hall. unfold documents. now rewrite Hdb.
    + unfold documents at 1. now rewrite upload_unconfigured.
  - rewrite list_world. apply Hall.
  - rewrite download_world. apply Hall.
Qed.

(** Every record the service has stored holds its extracted text, a
    string. *)
Lemma reachable_has_text w : reachable w -> forall doc, In doc (documents w) -> has_text doc.
Proof.
  induction 1 as [configured|E r w _ IH].
  - intros doc Hdoc. destruct configured; destruct Hdoc.
  - now apply handle_has_text.
Qed.

Lemma get_documents_stored E limit w docs :
  fst (get_documents E (lit "document") limit w) = Returns docs ->
  forall doc, In doc docs -> In doc (documents w).
Proof.
  unfold get_documents, the_database, documents.
  unfold bind, get_db, ret, raise.
  destruct (db w) as [d|]; [|discriminate].
  destruct (find_raises E); [discriminate|].
  cbn [fst]. intros [= <-] doc Hdoc.
  apply list_elem_of_In. apply list_elem_of_In in Hdoc.
  now apply (subseteq_take (Z.to_nat limit)).
Qed.

End StoredRecords.

(** C6: the items of the list response are the records fetched, each
    serialized; the item of a record with the extracted text [txt] has no
    field [extracted_text], and its [extracted_text_preview] is the first 200
    characters of [txt] followed by "..." when [txt] is longer than 200
    characters, and [txt] itself otherwise; and every record fetched in a
    state the service can reach has such a text. *)
Theorem list_items_carry_previews (E : env) (limit : Z) (w : world) (docs : list dict) :
  fst (get_documents E (lit "document") limit w) = Returns docs ->
  fst (list_documents E limit w) = Returns (map serialize docs)
  /\ (forall doc txt,
        In doc docs -> doc !! lit "extracted_text" = Some (VStr txt) ->
        serialize doc !! lit "extracted_text" = None
        /\ (200 < length txt ->
            serialize doc !! lit "extracted_text_preview"
            = Some (VStr (firstn 200 txt ++ lit "...")))
        /\ (length txt <= 200 ->
            serialize doc !! lit "extracted_text_preview" = Some (VStr txt)))
  /\ (reachable w ->
      forall doc, In doc docs ->
        exists txt, doc !! lit "extracted_text" = Some (VStr txt)).
Proof.
  intros Hdocs. split; [|split].
  - unfold list_documents, bind, ret.
    destruct (get_documents E (lit "document") limit w) as [[docs'|e] w'];
      cbn [fst] in Hdocs; [|discriminate].
    now injection Hdocs as ->.
  - intros doc txt _ Htxt.
    destruct (serialize_text doc txt Htxt) as [Hnone Hprev].
    split; [exact Hnone|]. rewrite Hprev. split; intros Hlen.
    + now rewrite truncate_long.
    + now rewrite truncate_short.
  - intros Hreach doc Hdoc.
    apply (reachable_has_text w Hreach).
    now apply (get_documents_stored E limit w docs).
Qed.

Lemma list_items_carry_previews_witness :
  fst (list_documents (Examples.env_of [] []) 50 Examples.after_upload)
  = Returns (map serialize [<[lit "_id" := VOid Examples.doc_oid]>
                              (record_of (lit "report.pdf") pdf_mime 4 Examples.long_text false
                                 Examples.file_oid)])
  /\ serialize Examples.stored_doc !! lit "extracted_text" = None
  /\ serialize Examples.stored_doc !! lit "extracted_text_preview"
     = Some (VStr (firstn 200 (lit "Quarterly " ++ Examples.long_text ++ Examples.long_text
                                ++ Examples.long_text ++ Examples.long_text
                                ++ Examples.long_text) ++ lit "...")).
Proof.
  split.
  - apply (list_items_carry_previews (Examples.env_of [] []) 50 Examples.after_upload).
    vm_compute. reflexivity.
  - destruct (list_items_carry_previews (Examples.env_of [] []) 50
                (World (Some (Database {[lit "document" := [Examples.stored_doc]]} ∅)) [])
                [Examples.stored_doc]) as (_ & Hitems & _).
    + vm_compute. reflexivity.
    + destruct (Hitems Examples.stored_doc _ (or_introl eq_refl) eq_refl)
        as (Hnone & Hlong & _).
      split; [exact Hnone|]. apply Hlong.
      apply Nat.ltb_lt. vm_compute. reflexivity.
Defined.

(** C9: an upload of a PDF that finds a database writes the bytes to GridFS
    whenever [fs.put] takes them, whatever the text (even empty); a metadata
    insert made by an upload comes after the write of the blob that its
    record names, and that blob is then in GridFS; and in every state the
    service can reach, every record of the collection names a blob that was
    written and that GridFS holds. *)
Theorem blob_is_written_before_its_record :
  (forall E file use_ocr ocr_api_key w d file_id,
     UploadFile.content_type file = Some pdf_mime ->
     db w = Some d ->
     gridfs_put E = Returns file_id ->
     fs_files d !! oid_value file_id = None ->
     In (BlobWrite file_id (UploadFile.content file))
        (history (snd (upload_document E file use_ocr ocr_api_key w)))
     /\ exists f,
          files (snd (upload_document E file use_ocr ocr_api_key w)) !! oid_value file_id
          = Some f
          /\ gf_data f = UploadFile.content file)
  /\ (forall E file use_ocr ocr_api_key w pre name doc_id record post,
        history (snd (upload_document E file use_ocr ocr_api_key w))
        = history w ++ pre ++ MetadataInsert name doc_id record :: post ->
        exists file_id,
          In (BlobWrite file_id (UploadFile.content file)) pre
          /\ record !! lit "file_id" = Some (VStr (to_str file_id))
          /\ exists f,
               files (snd (upload_document E file use_ocr ocr_api_key w))
                 !! oid_value file_id = Some f
               /\ gf_data f = UploadFile.content file)
  /\ (forall w doc,
        reachable w -> In doc (documents w) -> refers_to_written_blob w doc).
Proof.
  split; [|split].
  - intros E file use_ocr ocr_api_key w d file_id. apply upload_writes_blob.
  - intros E file use_ocr ocr_api_key w pre name doc_id record post.
    apply upload_insert_after_blob.
  - intros w doc Hreach. now apply reachable_consistent.
Qed.

Lemma blob_is_written_before_its_record_witness :
  In (BlobWrite Examples.file_oid (UploadFile.content Examples.pdf))
     (history (snd (upload_document (Examples.env_of [] []) Examples.pdf false None
                      (initial true))))
  /\ (forall doc, In doc (documents Examples.after_upload) ->
        refers_to_written_blob Examples.after_upload doc).
Proof.
  destruct blob_is_written_before_its_record as (Hwrite & _ & Hreach).
  split.
  - apply (Hwrite (Examples.env_of [] []) Examples.pdf false None (initial true)
             (Database ∅ ∅) Examples.file_oid); reflexivity.
  - intros doc. apply Hreach.
    apply (reachable_handle (Examples.env_of [Examples.long_text] [])
             (Upload Examples.pdf false None) (initial true)).
    apply reachable_initial.
Defined.

(** * Further properties of the code *)

(** ** The OCR client *)

Section OcrClient.

Lemma status_ok r :
  (status_code r < 400 \/ 600 <= status_code r)%Z -> raise_for_status r = Returns tt.
Proof.
  intros H. unfold raise_for_status.
  destruct (Z.leb_spec 400 (status_code r)), (Z.ltb_spec (status_code r) 600);
    simpl; try reflexivity; lia.
Qed.

Lemma status_error r :
  (400 <= status_code r < 600)%Z -> exists e, raise_for_status r = Raises e.
Proof.
  intros H. unfold raise_for_status.
  destruct (Z.leb_spec 400 (status_code r)), (Z.ltb_spec (status_code r) 600);
    simpl; try lia. eauto.
Qed.

Lemma traverse_returns {A B} (f : A -> outcome B) (l : list A) (l' : list B) :
  traverse f l = Returns l' -> Forall2 (fun a b => f a = Returns b) l l'.
Proof.
  revert l'. induction l as [|a l IH]; intros l'; simpl.
  - intros [= <-]. constructor.
  - destruct (f a) as [b|e] eqn:Hb; simpl; [|discriminate].
    destruct (traverse f l) as [bs|e]; simpl; [|discriminate].
    intros [= <-]. constructor; auto.
Qed.

Lemma traverse_all {A B} (f : A -> outcome B) (l : list A) (l' : list B) :
  Forall2 (fun a b => f a = Returns b) l l' -> traverse f l = Returns l'.
Proof.
  induction 1 as [|a b l l' Hab _ IH]; simpl; [reflexivity|].
  now rewrite Hab, IH.
Qed.

Lemma traverse_raises {A B} (f : A -> outcome B) (l : list A) (a : A) (e : exn) :
  In a l -> f a = Raises e -> exists e', traverse f l = Raises e'.
Proof.
  intros Hin Ha. induction l as [|x l IH]; [destruct Hin|].
  simpl. destruct Hin as [->|Hin].
  - rewrite Ha. simpl. eauto.
  - destruct (f x); simpl; [|eauto].
    destruct (IH Hin) as [e' ->]. simpl. eauto.
Qed.

(** Whatever the response, the text made of it is stripped. *)
Lemma ocr_text_stripped r s : ocr_text_of_response r = Returns s -> strip s = s.
Proof.
  unfold ocr_text_of_response.
  destruct (raise_for_status r); simpl; [|discriminate].
  destruct (json r) as [data|]; simpl; [|discriminate].
  destruct (Json.get data "IsErroredOnProcessing" Json.Null) as [errored|];
    simpl; [|discriminate].
  destruct (Json.truthy errored); [now intros [= <-]|].
  destruct (Json.get data "ParsedResults" Json.Null) as [found|]; simpl; [|discriminate].
  destruct (Json.iterate _) as [prs|]; simpl; [|discriminate].
  destruct (traverse _ prs) as [parts|]; simpl; [|discriminate].
  destruct (traverse as_str parts) as [texts|]; simpl; [|discriminate].
  intros [= <-]. apply strip_idem.
Qed.

(** The text of a response that carries a list of parsed results. *)
Lemma ocr_text_of_results r items results :
  raise_for_status r = Returns tt ->
  json r = Returns (Json.Obj items) ->
  Json.truthy (default Json.Null (Json.assoc (lit "IsErroredOnProcessing") items)) = false ->
  Json.assoc (lit "ParsedResults") items = Some (Json.Arr results) ->
  ocr_text_of_response r
  = obind (traverse (fun pr => Json.get pr "ParsedText" (Json.Str [])) results)
      (fun parts => obind (traverse as_str parts)
         (fun texts => Returns (strip (join nl texts)))).
Proof.
  intros Hstatus Hjson Hflag Hresults. unfold ocr_text_of_response.
  rewrite Hstatus, Hjson. cbn [obind Json.get]. rewrite Hflag, Hresults.
  now destruct results.
Qed.

Lemma ocr_result_stripped E : strip (ocr_result E) = ocr_result E.
Proof.
  unfold ocr_result. destruct (http_post E) as [r|]; simpl; [|reflexivity].
  destruct (ocr_text_of_response r) as [s|] eqn:Hs; [|reflexivity].
  now apply (ocr_text_stripped r).
Qed.

Lemma ocr_returns E file_bytes api_key w :
  fst (ocr_with_ocrspace E file_bytes api_key w) = Returns (ocr_result E).
Proof. now rewrite ocr_run. Qed.

End OcrClient.

(** X1: the OCR client never raises: it returns a text that is its own
    [strip], makes exactly one request (with the bytes and the key it was
    given) and leaves the database as it was. *)
Theorem ocr_client_always_returns (E : env) (file_bytes : bytes) (api_key : str) (w : world) :
  exists text,
    ocr_with_ocrspace E file_bytes api_key w
    = (Returns text, World (db w) (history w ++ [OcrRequest file_bytes api_key]))
    /\ strip text = text.
Proof.
  exists (ocr_result E). split; [apply ocr_run|apply ocr_result_stripped].
Qed.

(** X2: every failure on the way gives the empty string: a transport error,
    a 4xx or 5xx status, a body that is not JSON, a JSON body that is not an
    object, and a provider that reports [IsErroredOnProcessing]. *)
Theorem ocr_failures_give_empty_text (E : env) (file_bytes : bytes) (api_key : str)
    (w : world) :
  (forall e, http_post E = Raises e ->
     fst (ocr_with_ocrspace E file_bytes api_key w) = Returns [])
  /\ (forall r, http_post E = Returns r -> (400 <= status_code r < 600)%Z ->
        fst (ocr_with_ocrspace E file_bytes api_key w) = Returns [])
  /\ (forall r e, http_post E = Returns r -> json r = Raises e ->
        fst (ocr_with_ocrspace E file_bytes api_key w) = Returns [])
  /\ (forall r data, http_post E = Returns r -> json r = Returns data ->
        (forall items, data <> Json.Obj items) ->
        fst (ocr_with_ocrspace E file_bytes api_key w) = Returns [])
  /\ (forall r items flag, http_post E = Returns r -> json r = Returns (Json.Obj items) ->
        Json.assoc (lit "IsErroredOnProcessing") items = Some flag ->
        Json.truthy flag = true ->
        fst (ocr_with_ocrspace E file_bytes api_key w) = Returns []).
Proof.
  rewrite ocr_returns. unfold ocr_result.
  split; [|split; [|split; [|split]]].
  - now intros e ->.
  - intros r -> Hstatus. simpl. unfold ocr_text_of_response.
    now destruct (status_error r Hstatus) as [e ->].
  - intros r e -> Hjson. simpl. unfold ocr_text_of_response.
    destruct (raise_for_status r); simpl; [|reflexivity]. now rewrite Hjson.
  - intros r data -> Hjson Hobj. simpl. unfold ocr_text_of_response.
    destruct (raise_for_status r); simpl; [|reflexivity]. rewrite Hjson. simpl.
    destruct data; try reflexivity. now destruct (Hobj items).
  - intros r items flag -> Hjson Hflag Htrue. simpl. unfold ocr_text_of_response.
    destruct (raise_for_status r); simpl; [|reflexivity]. rewrite Hjson. simpl.
    now rewrite Hflag; simpl; rewrite Htrue.
Qed.

Lemma ocr_failures_give_empty_text_witness :
  fst (ocr_with_ocrspace (Examples.ocr_env (Returns (Response 503 (Returns (Json.Obj [])))))
         [Byte.x25] Examples.api_key (initial true))
  = Returns [].
Proof.
  refine (proj1 (proj2 (ocr_failures_give_empty_text
            (Examples.ocr_env (Returns (Response 503 (Returns (Json.Obj [])))))
            [Byte.x25] Examples.api_key (initial true)))
          (Response 503 (Returns (Json.Obj []))) eq_refl _).
  simpl. lia.
Defined.

(** X3: a response with a good status whose body is an object that reports
    no error and lists parsed results, each an object whose [ParsedText] is a
    string or is missing (then counted as empty), gives the parsed texts, in
    order, joined by newlines and stripped; an empty text among them still
    takes its line.  With no [ParsedResults] at all the text is empty. *)
Theorem ocr_joins_parsed_texts (E : env) (file_bytes : bytes) (api_key : str) (w : world)
    (r : response) (items : list (str * Json.t)) :
  http_post E = Returns r ->
  (status_code r < 400 \/ 600 <= status_code r)%Z ->
  json r = Returns (Json.Obj items) ->
  Json.truthy (default Json.Null (Json.assoc (lit "IsErroredOnProcessing") items)) = false ->
  (forall results texts,
     Json.assoc (lit "ParsedResults") items = Some (Json.Arr results) ->
     Forall2 (fun result text =>
                exists fields,
                  result = Json.Obj fields
                  /\ default (Json.Str []) (Json.assoc (lit "ParsedText") fields)
                     = Json.Str text)
             results texts ->
     fst (ocr_with_ocrspace E file_bytes api_key w) = Returns (strip (join nl texts)))
  /\ (Json.assoc (lit "ParsedResults") items = None ->
      fst (ocr_with_ocrspace E file_bytes api_key w) = Returns []).
Proof.
  intros Hpost Hstatus Hjson Hflag.
  rewrite ocr_returns. unfold ocr_result. rewrite Hpost. cbn [obind]. split.
  - intros results texts Hresults Hall.
    rewrite (ocr_text_of_results r items results (status_ok r Hstatus) Hjson Hflag Hresults).
    assert (Hparts : traverse (fun pr => Json.get pr "ParsedText" (Json.Str [])) results
                     = Returns (map Json.Str texts)).
    { apply traverse_all. clear Hresults.
      induction Hall as [|res t ress ts (fields & -> & Ht) _ IH];
        simpl; [constructor|].
      constructor; [|exact IH]. simpl. now rewrite Ht. }
    rewrite Hparts. cbn [obind].
    assert (Htexts : traverse as_str (map Json.Str texts) = Returns texts).
    { apply traverse_all. clear. induction texts; simpl; constructor; auto. }
    now rewrite Htexts.
  - intros Hnone. unfold ocr_text_of_response.
    rewrite (status_ok r Hstatus), Hjson. cbn [obind Json.get].
    rewrite Hflag, Hnone. reflexivity.
Qed.

Lemma ocr_joins_parsed_texts_witness :
  fst (ocr_with_ocrspace
         (Examples.ocr_env (Returns (Response 200 (Returns Examples.three_results))))
         [Byte.x25] Examples.api_key (initial true))
  = Returns (lit "page one" ++ nl ++ nl ++ lit "page three").
Proof.
  refine (proj1 (ocr_joins_parsed_texts
                   (Examples.ocr_env (Returns (Response 200 (Returns Examples.three_results))))
                   [Byte.x25] Examples.api_key (initial true)
                   (Response 200 (Returns Examples.three_results)) _ eq_refl _ eq_refl eq_refl)
            _ [lit " page one"; []; lit "page three "] eq_refl _).
  - simpl. lia.
  - repeat constructor; eexists; split; reflexivity.
Defined.

(** X4: one parsed result that is not an object, or whose [ParsedText] is not
    a string, makes the client return the empty string, whatever text the
    other results hold. *)
Theorem ocr_one_bad_result_loses_all (E : env) (file_bytes : bytes) (api_key : str)
    (w : world) (r : response) (items : list (str * Json.t)) (results : list Json.t)
    (bad : Json.t) :
  http_post E = Returns r ->
  json r = Returns (Json.Obj items) ->
  Json.assoc (lit "ParsedResults") items = Some (Json.Arr results) ->
  In bad results ->
  (forall fields text,
     bad = Json.Obj fields ->
     default (Json.Str []) (Json.assoc (lit "ParsedText") fields) <> Json.Str text) ->
  fst (ocr_with_ocrspace E file_bytes api_key w) = Returns [].
Proof.
  intros Hpost Hjson Hresults Hin Hbad.
  rewrite ocr_returns. unfold ocr_result. rewrite Hpost. cbn [obind].
  destruct (raise_for_status r) as [[]|e] eqn:Hstatus;
    [|unfold ocr_text_of_response; now rewrite Hstatus].
  destruct (Json.truthy (default Json.Null
              (Json.assoc (lit "IsErroredOnProcessing") items))) eqn:Hflag.
  { unfold ocr_text_of_response. rewrite Hstatus, Hjson. cbn [obind Json.get].
    now rewrite Hflag. }
  rewrite (ocr_text_of_results r items results Hstatus Hjson Hflag Hresults).
  destruct (traverse _ results) as [parts|e] eqn:Hparts; [|reflexivity].
  apply traverse_returns in Hparts. cbn [obind].
  assert (Hfail : exists part e, In part parts /\ as_str part = Raises e).
  { clear Hresults. induction Hparts as [|res part ress parts Hres _ IH];
      [destruct Hin|].
    destruct Hin as [->|Hin].
    - exists part. destruct bad; try discriminate.
      simpl in Hres. injection Hres as Hres.
      destruct part; simpl; eauto using in_eq.
      now destruct (Hbad _ s eq_refl).
    - destruct (IH Hin) as (part' & e & Hin' & He). exists part', e.
      split; [now right|exact He]. }
  destruct Hfail as (part & e & Hpart & He).
  now destruct (traverse_raises as_str parts part e Hpart He) as [e' ->].
Qed.

Lemma ocr_one_bad_result_loses_all_witness :
  fst (ocr_with_ocrspace
         (Examples.ocr_env (Returns (Response 200 (Returns Examples.null_text_result))))
         [Byte.x25] Examples.api_key (initial true))
  = Returns [].
Proof.
  refine (ocr_one_bad_result_loses_all
            (Examples.ocr_env (Returns (Response 200 (Returns Examples.null_text_result))))
            [Byte.x25] Examples.api_key (initial true)
            (Response 200 (Returns Examples.null_text_result)) _ _
            (Json.Obj [(lit "ParsedText", Json.Null)]) eq_refl eq_refl eq_refl _ _).
  - simpl. auto.
  - intros fields text [= <-]. discriminate.
Defined.

(** ** More on the upload handler *)

Section UploadEdges.

Variable E : env.

Lemma persisted_keeps d file size text used d' writes :
  persisted d file size text used d' writes ->
  (forall k f, fs_files d !! k = Some f -> fs_files d' !! k = Some f)
  /\ exists new,
       collection d' (lit "document") = collection d (lit "document") ++ new
       /\ length new <= 1.
Proof.
  intros [|fid Hfresh|fid did fname ct Hfresh Hnew Hname Hct].
  - split; [auto|]. exists []. rewrite app_nil_r. split; [reflexivity|simpl; lia].
  - split.
    + intros k f Hk. cbn [add_file fs_files].
      rewrite lookup_insert_ne; [exact Hk|]. intros <-. congruence.
    + exists []. rewrite app_nil_r. split; [reflexivity|simpl; lia].
  - split.
    + intros k f Hk. cbn [add_document add_file fs_files].
      rewrite lookup_insert_ne; [exact Hk|]. intros <-. congruence.
    + eexists [_]. rewrite collection_add_document. split; [reflexivity|simpl; lia].
Qed.

Lemma persisted_writes d file size text used d' writes :
  persisted d file size text used d' writes ->
  writes = []
  \/ (exists file_id, writes = [BlobWrite file_id (UploadFile.content file)])
  \/ (exists file_id doc_id record,
        writes = [BlobWrite file_id (UploadFile.content file);
                  MetadataInsert (lit "document") doc_id record]).
Proof. intros []; eauto 7. Qed.

Lemma truncate_length n (s : str) : length (truncate n s) <= n + 3.
Proof.
  unfold truncate. rewrite length_app, length_firstn.
  destruct (n <? length s); simpl; lia.
Qed.

Lemma preview_length (text : str) : length (preview text) <= 303.
Proof.
  unfold preview. destruct (nonempty text); [|simpl; lia].
  pose proof (truncate_length 300 text). lia.
Qed.

Lemma preview_empty (text : str) : preview text = [] <-> text = [].
Proof.
  unfold preview, truncate. destruct text as [|c text]; simpl; [tauto|].
  split; discriminate.
Qed.

End UploadEdges.

(** X5: without a database the upload of a PDF ends in the 500 error, but
    only after the text was extracted and the OCR step was run: the OCR
    request, when the path is entered with a key, has been made all the
    same.  Nothing else has happened. *)
Theorem upload_without_database (E : env) (file : UploadFile.t) (use_ocr : bool)
    (ocr_api_key : option str) (w : world) :
  UploadFile.content_type file = Some pdf_mime ->
  db w = None ->
  exists text,
    extract_text_from_pdf (PdfReader E) (UploadFile.content file) = Returns text
    /\ upload_document E file use_ocr ocr_api_key w
       = (Raises (HTTPException 500 (lit "Database not configured")),
          World None
            (history w
             ++ (if enters_ocr_path use_ocr text then
                   match key_supplied ocr_api_key with
                   | Some key => [OcrRequest (UploadFile.content file) key]
                   | None => []
                   end
                 else []))).
Proof.
  intros Hct Hdb.
  destruct (extract_total (PdfReader E) (UploadFile.content file)) as (text & Htext & _).
  exists text. split; [exact Htext|].
  rewrite (upload_run E file use_ocr ocr_api_key w text Hct Htext). cbv zeta.
  assert (Hw : w = World None (history w ++ [])).
  { destruct w; simpl in *. now rewrite app_nil_r, Hdb. }
  destruct (enters_ocr_path use_ocr text).
  - destruct (key_supplied ocr_api_key) as [key|].
    + rewrite persist_unconfigured by exact Hdb. now rewrite Hdb.
    + rewrite persist_unconfigured by exact Hdb. now rewrite <- Hw.
  - rewrite persist_unconfigured by exact Hdb. now rewrite <- Hw.
Qed.

Lemma upload_without_database_witness :
  upload_document (Examples.env_of [Examples.short_text] Examples.scanned_text) Examples.pdf
    false (Some Examples.api_key) (initial false)
  = (Raises (HTTPException 500 (lit "Database not configured")),
     World None [OcrRequest (UploadFile.content Examples.pdf) Examples.api_key]).
Proof.
  destruct (upload_without_database
              (Examples.env_of [Examples.short_text] Examples.scanned_text) Examples.pdf
              false (Some Examples.api_key) (initial false) eq_refl eq_refl)
    as (text & Htext & Hrun).
  vm_compute in Htext. injection Htext as <-. exact Hrun.
Defined.

(** X6: when [fs.put] raises, the upload ends in that very error and has
    written nothing: the database is as it was. *)
Theorem upload_put_failure_writes_nothing (E : env) (file : UploadFile.t) (use_ocr : bool)
    (ocr_api_key : option str) (w : world) (d : database) (e : exn) :
  UploadFile.content_type file = Some pdf_mime ->
  db w = Some d ->
  gridfs_put E = Raises e ->
  fst (upload_document E file use_ocr ocr_api_key w) = Raises e
  /\ db (snd (upload_document E file use_ocr ocr_api_key w)) = Some d.
Proof.
  intros Hct Hdb Hput.
  destruct (upload_pdf E file use_ocr ocr_api_key w Hct)
    as (text & final & used & evs & _ & _ & _ & ->).
  rewrite (persist_run E _ _ _ _ _ (World (db w) (history w ++ evs)) d Hdb), Hput.
  split; [reflexivity|exact Hdb].
Qed.

Lemma upload_put_failure_writes_nothing_witness :
  fst (upload_document
         (Env (Examples.reader_of [Examples.long_text]) (Examples.ocr_reply [])
            (Raises (PyError "ServerSelectionTimeoutError")) (Returns Examples.doc_oid)
            None None)
         Examples.pdf false None (initial true))
  = Raises (PyError "ServerSelectionTimeoutError")
  /\ db (snd (upload_document
                (Env (Examples.reader_of [Examples.long_text]) (Examples.ocr_reply [])
                   (Raises (PyError "ServerSelectionTimeoutError")) (Returns Examples.doc_oid)
                   None None)
                Examples.pdf false None (initial true)))
     = Some (Database ∅ ∅).
Proof.
  apply (upload_put_failure_writes_nothing
           (Env (Examples.reader_of [Examples.long_text]) (Examples.ocr_reply [])
              (Raises (PyError "ServerSelectionTimeoutError")) (Returns Examples.doc_oid)
              None None)
           Examples.pdf false None (initial true) (Database ∅ ∅)
           (PyError "ServerSelectionTimeoutError")); reflexivity.
Defined.

(** X7: the two writes are not one transaction: when the blob was written
    and the metadata insert then raises, the upload ends in that error, the
    blob stays in GridFS and the collection has no record for it. *)
Theorem upload_insert_failure_leaves_blob (E : env) (file : UploadFile.t) (use_ocr : bool)
    (ocr_api_key : option str) (w : world) (d : database) (file_id : ObjectId)
    (filename : str) (e : exn) :
  UploadFile.content_type file = Some pdf_mime ->
  UploadFile.filename file = Some filename ->
  db w = Some d ->
  gridfs_put E = Returns file_id ->
  fs_files d !! oid_value file_id = None ->
  insert_one E = Raises e ->
  fst (upload_document E file use_ocr ocr_api_key w) = Raises e
  /\ files (snd (upload_document E file use_ocr ocr_api_key w)) !! oid_value file_id
     = Some (GridFile (UploadFile.content file) (Some filename) (Some pdf_mime))
  /\ documents (snd (upload_document E file use_ocr ocr_api_key w)) = documents w.
Proof.
  intros Hct Hname Hdb Hput Hfresh Hins.
  destruct (upload_pdf E file use_ocr ocr_api_key w Hct)
    as (text & final & used & evs & _ & _ & _ & ->).
  rewrite (persist_run E _ _ _ _ _ (World (db w) (history w ++ evs)) d Hdb).
  rewrite Hput, Hfresh. cbv zeta. rewrite Hname, Hct. cbn [DocumentSchema.new].
  rewrite Hins. unfold files, documents. cbn [fst snd db add_file fs_files].
  rewrite lookup_insert_eq, Hdb. repeat split.
Qed.

Lemma upload_insert_failure_leaves_blob_witness :
  fst (upload_document
         (Env (Examples.reader_of [Examples.long_text]) (Examples.ocr_reply [])
            (Returns Examples.file_oid) (Raises (PyError "AutoReconnect")) None None)
         Examples.pdf false None (initial true))
  = Raises (PyError "AutoReconnect")
  /\ files (snd (upload_document
                   (Env (Examples.reader_of [Examples.long_text]) (Examples.ocr_reply [])
                      (Returns Examples.file_oid) (Raises (PyError "AutoReconnect")) None None)
                   Examples.pdf false None (initial true)))
       !! oid_value Examples.file_oid
     = Some (GridFile (UploadFile.content Examples.pdf) (Some (lit "report.pdf"))
               (Some pdf_mime))
  /\ documents (snd (upload_document
                       (Env (Examples.reader_of [Examples.long_text]) (Examples.ocr_reply [])
                          (Returns Examples.file_oid) (Raises (PyError "AutoReconnect"))
                          None None)
                       Examples.pdf false None (initial true)))
     = documents (initial true).
Proof.
  apply (upload_insert_failure_leaves_blob
           (Env (Examples.reader_of [Examples.long_text]) (Examples.ocr_reply [])
              (Returns Examples.file_oid) (Raises (PyError "AutoReconnect")) None None)
           Examples.pdf false None (initial true) (Database ∅ ∅) Examples.file_oid
           (lit "report.pdf") (PyError "AutoReconnect")); reflexivity.
Defined.

(** X8: an upload only adds: every file GridFS held is still there,
    unchanged; the collection is what it was, followed by at most one new
    record; and the history is what it was, followed by at most one OCR
    request, then at most one blob write, then at most one insert. *)
Theorem upload_only_adds (E : env) (file : UploadFile.t) (use_ocr : bool)
    (ocr_api_key : option str) (w : world) :
  (forall k f,
     files w !! k = Some f ->
     files (snd (upload_document E file use_ocr ocr_api_key w)) !! k = Some f)
  /\ (exists new,
        documents (snd (upload_document E file use_ocr ocr_api_key w)) = documents w ++ new
        /\ length new <= 1)
  /\ (exists ocr writes,
        history (snd (upload_document E file use_ocr ocr_api_key w))
        = history w ++ ocr ++ writes
        /\ (ocr = [] \/ exists key, ocr = [OcrRequest (UploadFile.content file) key])
        /\ (writes = []
            \/ (exists file_id, writes = [BlobWrite file_id (UploadFile.content file)])
            \/ (exists file_id doc_id record,
                  writes = [BlobWrite file_id (UploadFile.content file);
                            MetadataInsert (lit "document") doc_id record]))).
Proof.
  destruct (db w) as [d|] eqn:Hdb.
  - destruct (upload_effects E file use_ocr ocr_api_key w d Hdb)
      as (ocr & d' & writes & text & used & -> & Hocr & Hst).
    destruct (persisted_keeps _ _ _ _ _ _ _ Hst) as (Hfiles & new & Hnew & Hlen).
    unfold files, documents. rewrite Hdb. cbn [snd db history].
    split; [exact Hfiles|].
    split; [eauto|].
    exists ocr, writes. split; [reflexivity|].
    split; [exact Hocr|exact (persisted_writes _ _ _ _ _ _ _ Hst)].
  - pose proof (upload_unconfigured E file use_ocr ocr_api_key w Hdb) as Hnone.
    destruct (upload_unconfigured_history E file use_ocr ocr_api_key w Hdb)
      as (ocr & Hhist & Hocr).
    unfold files, documents. rewrite Hnone, Hdb.
    split; [auto|].
    split; [exists []; split; [reflexivity|simpl; lia]|].
    exists ocr, []. rewrite app_nil_r. auto.
Qed.

(** X9: the response of a successful upload agrees with what was stored:
    its size is the number of bytes uploaded, its filename is the file's,
    and the record found under its id holds that filename, that size, the
    same [ocr_used] flag and the id of a GridFS file that holds exactly the
    uploaded bytes under the same filename and content type. *)
Theorem upload_response_matches_record (E : env) (file : UploadFile.t) (use_ocr : bool)
    (ocr_api_key : option str) (w w' : world) (resp : UploadResponse.t) :
  upload_document E file use_ocr ocr_api_key w = (Returns resp, w') ->
  UploadResponse.size resp = Z.of_nat (length (UploadFile.content file))
  /\ UploadFile.filename file = Some (UploadResponse.filename resp)
  /\ stored_field w' (UploadResponse.id resp) "filename"
     = Some (VStr (UploadResponse.filename resp))
  /\ stored_field w' (UploadResponse.id resp) "size" = Some (VInt (UploadResponse.size resp))
  /\ stored_field w' (UploadResponse.id resp) "ocr_used"
     = Some (VBool (UploadResponse.ocr_used resp))
  /\ exists file_id,
       stored_field w' (UploadResponse.id resp) "file_id" = Some (VStr (to_str file_id))
       /\ files w' !! oid_value file_id
          = Some (GridFile (UploadFile.content file) (UploadFile.filename file)
                    (UploadFile.content_type file)).
Proof.
  intros Hrun.
  destruct (decide (UploadFile.content_type file = Some pdf_mime)) as [Hct|Hct];
    [|rewrite upload_not_pdf in Hrun by assumption; discriminate].
  destruct (upload_pdf E file use_ocr ocr_api_key w Hct)
    as (text & final & used & evs & _ & _ & _ & Heq).
  rewrite Heq in Hrun.
  apply persist_returns in Hrun
    as (d & fid & did & fname & ct & _ & _ & _ & _ & Hnew & Hname & Hct' & -> & ->).
  cbn [UploadResponse.size UploadResponse.filename UploadResponse.id UploadResponse.ocr_used].
  unfold stored_field. rewrite stored_record_new by exact Hnew.
  split; [reflexivity|]. split; [exact Hname|].
  repeat (split; [reflexivity|]).
  exists fid. split; [reflexivity|].
  unfold files. cbn [db add_document add_file fs_files].
  now rewrite lookup_insert_eq, Hname, Hct'.
Qed.

Lemma upload_response_matches_record_witness :
  UploadResponse.size
    (UploadResponse.Make (to_str Examples.doc_oid) (lit "report.pdf") 4 false
       Examples.long_text) = 4%Z
  /\ stored_field Examples.after_upload (to_str Examples.doc_oid) "size" = Some (VInt 4)
  /\ files Examples.after_upload !! oid_value Examples.file_oid
     = Some (GridFile (UploadFile.content Examples.pdf) (Some (lit "report.pdf"))
               (Some pdf_mime)).
Proof.
  destruct (upload_response_matches_record (Examples.env_of [Examples.long_text] [])
              Examples.pdf false None (initial true) Examples.after_upload
              (UploadResponse.Make (to_str Examples.doc_oid) (lit "report.pdf") 4 false
                 Examples.long_text))
    as (Hsize & _ & _ & Hstored & _ & fid & Hfid & Hfile).
  - vm_compute. reflexivity.
  - split; [exact Hsize|]. split; [exact Hstored|].
    vm_compute. reflexivity.
Defined.

(** X10: what the [ocr_used] flag of a response means.  When it is true, the
    path was entered with a key, a request was made to the OCR client with
    the uploaded bytes and that key, and what is stored is the client's text,
    which is not empty.  When it is false, what is stored is the natively
    extracted text. *)
Theorem ocr_used_tells_which_text_is_stored (E : env) (file : UploadFile.t) (use_ocr : bool)
    (ocr_api_key : option str) (w w' : world) (resp : UploadResponse.t) :
  upload_document E file use_ocr ocr_api_key w = (Returns resp, w') ->
  exists text,
    extract_text_from_pdf (PdfReader E) (UploadFile.content file) = Returns text
    /\ (UploadResponse.ocr_used resp = true ->
        exists key ocr_text,
          enters_ocr_path use_ocr text = true
          /\ key_supplied ocr_api_key = Some key
          /\ In (OcrRequest (UploadFile.content file) key) (history w')
          /\ fst (ocr_with_ocrspace E (UploadFile.content file) key w) = Returns ocr_text
          /\ ocr_text <> []
          /\ stored_field w' (UploadResponse.id resp) "extracted_text"
             = Some (VStr ocr_text))
    /\ (UploadResponse.ocr_used resp = false ->
        stored_field w' (UploadResponse.id resp) "extracted_text" = Some (VStr text)).
Proof.
  intros Hrun.
  destruct (decide (UploadFile.content_type file = Some pdf_mime)) as [Hct|Hct];
    [|rewrite upload_not_pdf in Hrun by assumption; discriminate].
  destruct (upload_pdf E file use_ocr ocr_api_key w Hct)
    as (text & final & used & evs & Htext & _ & Hchoice & Heq).
  rewrite Heq in Hrun. exists text. split; [exact Htext|].
  pose proof (persist_flag E _ _ _ _ _ _ _ Hrun) as (Hflag & _ & Hstored & _).
  apply persist_returns in Hrun
    as (d & fid & did & fname & ct & _ & _ & _ & _ & _ & _ & _ & _ & Hw').
  rewrite Hflag. split.
  - intros ->. inversion Hchoice as [| |key Hpath Hkey Hne Hfinal Hused Hevs|]; subst.
    exists key, (ocr_result E). repeat split; try assumption.
    + cbn [history]. apply in_or_app. left. apply in_or_app. right. now left.
    + apply ocr_returns.
    + now apply nonempty_true.
  - intros ->. inversion Hchoice; subst; assumption.
Qed.

Lemma ocr_used_tells_which_text_is_stored_witness :
  exists text,
    extract_text_from_pdf (Examples.reader_of [Examples.long_text])
      (UploadFile.content Examples.pdf) = Returns text
    /\ stored_field Examples.after_upload (to_str Examples.doc_oid) "extracted_text"
       = Some (VStr text).
Proof.
  destruct (ocr_used_tells_which_text_is_stored (Examples.env_of [Examples.long_text] [])
              Examples.pdf false None (initial true) Examples.after_upload
              (UploadResponse.Make (to_str Examples.doc_oid) (lit "report.pdf") 4 false
                 Examples.long_text)) as (text & Htext & _ & Hnative).
  - vm_compute. reflexivity.
  - exists text. split; [exact Htext|]. now apply Hnative.
Defined.

(** X11: the preview of a successful upload has at most 303 characters, and
    it is empty exactly when the stored text is. *)
Theorem upload_preview_is_bounded (E : env) (file : UploadFile.t) (use_ocr : bool)
    (ocr_api_key : option str) (w w' : world) (resp : UploadResponse.t) :
  upload_document E file use_ocr ocr_api_key w = (Returns resp, w') ->
  length (UploadResponse.extracted_text_preview resp) <= 303
  /\ (UploadResponse.extracted_text_preview resp = []
      <-> stored_field w' (UploadResponse.id resp) "extracted_text" = Some (VStr [])).
Proof.
  intros Hrun.
  destruct (decide (UploadFile.content_type file = Some pdf_mime)) as [Hct|Hct];
    [|rewrite upload_not_pdf in Hrun by assumption; discriminate].
  destruct (upload_pdf E file use_ocr ocr_api_key w Hct)
    as (text & final & used & evs & _ & _ & _ & Heq).
  rewrite Heq in Hrun.
  apply persist_flag in Hrun as (_ & -> & -> & _).
  split; [apply preview_length|].
  rewrite preview_empty. split; [now intros ->|now intros [= ->]].
Qed.

Lemma upload_preview_is_bounded_witness :
  length (firstn 300 Examples.long_report ++ lit "...") <= 303.
Proof.
  apply (upload_preview_is_bounded (Examples.env_of Examples.long_pages []) Examples.pdf
           false None (initial true)
           (snd (upload_document (Examples.env_of Examples.long_pages []) Examples.pdf
                   false None (initial true)))
           (UploadResponse.Make (to_str Examples.doc_oid) (lit "report.pdf") 4 false
              (firstn 300 Examples.long_report ++ lit "..."))).
  vm_compute. reflexivity.
Defined.

(** ** More on the list handler *)

Section SerializeEdges.

Lemma serialize_without_text (d : dict) :
  (forall txt, d !! lit "extracted_text" <> Some (VStr txt)) ->
  serialize d
  = <[lit "file_id" := if truthy (get d "file_id")
                       then VStr (py_str (get d "file_id")) else VNone]>
      (<[lit "id" := VStr (py_str (get d "_id"))]> d).
Proof.
  intros Hno. unfold serialize. cbv zeta.
  rewrite !lookup_insert_ne by distinct_keys.
  assert (Hget : get (<[lit "id" := VStr (py_str (get d "_id"))]> d) "file_id"
                 = get d "file_id").
  { unfold get. now rewrite lookup_insert_ne by distinct_keys. }
  rewrite Hget.
  destruct (d !! lit "extracted_text") as [[]|] eqn:Htxt; try reflexivity.
  now destruct (Hno s).
Qed.

Lemma serialize_file_id (d : dict) :
  serialize d !! lit "file_id"
  = Some (if truthy (get d "file_id") then VStr (py_str (get d "file_id")) else VNone).
Proof.
  unfold serialize. cbv zeta.
  assert (Hget : get (<[lit "id" := VStr (py_str (get d "_id"))]> d) "file_id"
                 = get d "file_id").
  { unfold get. now rewrite lookup_insert_ne by distinct_keys. }
  rewrite Hget.
  destruct (_ !! lit "extracted_text") as [[]|];
    rewrite ?lookup_delete_ne by distinct_keys;
    rewrite ?(lookup_insert_ne _ (lit "extracted_text_preview")) by distinct_keys;
    apply lookup_insert_eq.
Qed.

Lemma serialize_id (d : dict) :
  serialize d !! lit "id" = Some (VStr (py_str (get d "_id"))).
Proof.
  unfold serialize. cbv zeta.
  destruct (_ !! lit "extracted_text") as [[]|];
    rewrite ?lookup_delete_ne by distinct_keys;
    rewrite ?(lookup_insert_ne _ (lit "extracted_text_preview")) by distinct_keys;
    rewrite (lookup_insert_ne _ (lit "file_id")) by distinct_keys;
    apply lookup_insert_eq.
Qed.

Lemma serialize_other (d : dict) (k : str) :
  k <> lit "id" -> k <> lit "file_id" -> k <> lit "extracted_text" ->
  k <> lit "extracted_text_preview" ->
  serialize d !! k = d !! k.
Proof.
  intros H1 H2 H3 H4. unfold serialize. cbv zeta.
  destruct (_ !! lit "extracted_text") as [[]|];
    rewrite ?lookup_delete_ne by congruence;
    rewrite ?(lookup_insert_ne _ (lit "extracted_text_preview")) by congruence;
    rewrite (lookup_insert_ne _ (lit "file_id")) by congruence;
    now rewrite (lookup_insert_ne _ (lit "id")) by congruence.
Qed.

End SerializeEdges.

(** X12: the list handler shortens the text only when the record holds one
    that is a string.  A record whose [extracted_text] is missing gets no
    preview, and one whose [extracted_text] is not a string keeps that field
    as it is in the item. *)
Theorem serialize_needs_a_string_text (d : dict) :
  (forall txt, d !! lit "extracted_text" <> Some (VStr txt)) ->
  serialize d !! lit "extracted_text" = d !! lit "extracted_text"
  /\ serialize d !! lit "extracted_text_preview" = d !! lit "extracted_text_preview".
Proof.
  intros Hno. rewrite (serialize_without_text d Hno).
  now rewrite !lookup_insert_ne by distinct_keys.
Qed.

Lemma serialize_needs_a_string_text_witness :
  serialize (<[lit "extracted_text" := VNone]> {[lit "_id" := VOid Examples.doc_oid]})
    !! lit "extracted_text" = Some VNone
  /\ serialize (<[lit "extracted_text" := VNone]> {[lit "_id" := VOid Examples.doc_oid]})
       !! lit "extracted_text_preview" = None.
Proof.
  assert (Hno : forall txt,
             (<[lit "extracted_text" := VNone]> {[lit "_id" := VOid Examples.doc_oid]} : dict)
               !! lit "extracted_text" <> Some (VStr txt)).
  { intros txt. vm_compute. discriminate. }
  exact (serialize_needs_a_string_text
           (<[lit "extracted_text" := VNone]> {[lit "_id" := VOid Examples.doc_oid]}) Hno).
Defined.

(** X13: what an item of the list carries besides the preview: [id] is the
    string of the record's [_id] (the string "None" when there is none);
    [file_id] is the string of the record's [file_id], and [None] when that
    is missing or falsy; every other field of the record is passed on as it
    is. *)
Theorem serialize_rewrites_only_its_fields (d : dict) :
  serialize d !! lit "id" = Some (VStr (py_str (get d "_id")))
  /\ (d !! lit "_id" = None -> serialize d !! lit "id" = Some (VStr (lit "None")))
  /\ (forall o, d !! lit "_id" = Some (VOid o) ->
        serialize d !! lit "id" = Some (VStr (to_str o)))
  /\ (truthy (get d "file_id") = false -> serialize d !! lit "file_id" = Some VNone)
  /\ (forall o, d !! lit "file_id" = Some (VOid o) ->
        serialize d !! lit "file_id" = Some (VStr (to_str o)))
  /\ (forall s, d !! lit "file_id" = Some (VStr s) -> s <> [] ->
        serialize d !! lit "file_id" = Some (VStr s))
  /\ (forall k,
        k <> lit "id" -> k <> lit "file_id" -> k <> lit "extracted_text" ->
        k <> lit "extracted_text_preview" ->
        serialize d !! k = d !! k).
Proof.
  split; [apply serialize_id|].
  split; [intros H; rewrite serialize_id; unfold get; now rewrite H|].
  split; [intros o H; rewrite serialize_id; unfold get; now rewrite H|].
  split; [intros H; rewrite serialize_file_id; now rewrite H|].
  split; [intros o H; rewrite serialize_file_id; unfold get; now rewrite H|].
  split; [|apply serialize_other].
  intros s H Hs. rewrite serialize_file_id. unfold get. rewrite H. simpl.
  apply nonempty_true in Hs. now rewrite Hs.
Qed.

Lemma serialize_rewrites_only_its_fields_witness :
  serialize {[lit "filename" := VStr (lit "scan.pdf")]} !! lit "id"
  = Some (VStr (lit "None"))
  /\ serialize {[lit "filename" := VStr (lit "scan.pdf")]} !! lit "file_id" = Some VNone
  /\ serialize {[lit "filename" := VStr (lit "scan.pdf")]} !! lit "filename"
     = Some (VStr (lit "scan.pdf")).
Proof.
  destruct (serialize_rewrites_only_its_fields {[lit "filename" := VStr (lit "scan.pdf")]})
    as (_ & Hid & _ & Hfile & _ & _ & Hother).
  split; [apply Hid; reflexivity|].
  split; [apply Hfile; reflexivity|].
  rewrite Hother by (vm_compute; discriminate). reflexivity.
Defined.

(** X14: the preview of a list item has at most 203 characters, however long
    the record's text is, and it is empty exactly when the text is. *)
Theorem list_preview_is_bounded (d : dict) (txt : str) :
  d !! lit "extracted_text" = Some (VStr txt) ->
  exists p,
    serialize d !! lit "extracted_text_preview" = Some (VStr p)
    /\ length p <= 203
    /\ (p = [] <-> txt = []).
Proof.
  intros Htxt. destruct (serialize_text d txt Htxt) as [_ Hprev].
  exists (truncate 200 txt). split; [exact Hprev|].
  split; [apply (truncate_length 200)|].
  unfold truncate. destruct txt as [|c txt]; simpl; [tauto|].
  split; discriminate.
Qed.

Lemma list_preview_is_bounded_witness :
  exists p,
    serialize Examples.stored_doc !! lit "extracted_text_preview" = Some (VStr p)
    /\ length p <= 203
    /\ (p = [] <-> lit "Quarterly " ++ Examples.long_text ++ Examples.long_text
                   ++ Examples.long_text ++ Examples.long_text ++ Examples.long_text = []).
Proof.
  exact (list_preview_is_bounded Examples.stored_doc _ eq_refl).
Defined.

(** ** More on the download handler *)

Section DownloadEdges.

(** What a download that returns has found. *)
Lemma download_returns (E : env) (doc_id : str) (w w' : world) (r : StreamingResponse) :
  download_document E doc_id w = (Returns r, w') ->
  w' = w
  /\ exists o doc file_id f,
       of_str doc_id = Returns o
       /\ List.find (has_id o) (documents w) = Some doc
       /\ truthy (get doc "file_id") = true
       /\ ObjectId_of (get doc "file_id") = Returns file_id
       /\ files w !! oid_value file_id = Some f
       /\ body r = gf_data f
       /\ media_type r = default (VStr pdf_mime) (doc !! lit "content_type")
       /\ headers r
          = [(lit "Content-Disposition",
              lit "attachment; filename="
              ++ py_str (default (VStr (lit "document.pdf")) (doc !! lit "filename")))].
Proof.
  destruct (db w) as [d|] eqn:Hdb;
    [|rewrite download_unconfigured by assumption; discriminate].
  rewrite (download_run E doc_id w d Hdb).
  unfold documents, files. rewrite Hdb.
  destruct (of_str doc_id) as [o|] eqn:Ho; [|discriminate].
  destruct (find_raises E); [discriminate|].
  destruct (List.find _ _) as [doc|] eqn:Hdoc; [|discriminate].
  destruct (_ || _) eqn:Href; [discriminate|].
  apply orb_false_iff in Href as [_ Href]. apply negb_false_iff in Href.
  destruct (ObjectId_of _) as [fid|] eqn:Hfid; [|discriminate].
  destruct (gridfs_get_raises E); [discriminate|].
  destruct (fs_files d !! oid_value fid) as [f|] eqn:Hfile; [|discriminate].
  destruct (StreamingResponse_new _ _ _) as [r0|] eqn:Hnew; [|discriminate].
  apply StreamingResponse_new_returns in Hnew as ->.
  intros [= <- <-]. split; [reflexivity|].
  exists o, doc, fid, f. repeat split; assumption || reflexivity.
Qed.

End DownloadEdges.

(** X15: a download that returns has found a record for the identifier and
    the GridFS file that the record names, and leaves the world as it was.
    It streams that file's bytes; the media type is the record's
    [content_type], and [application/pdf] when the record has none; the
    attachment is named after the record's [filename], and [document.pdf]
    when the record has none.  The content type GridFS keeps with the file
    is not looked at. *)
Theorem download_serves_the_record (E : env) (doc_id : str) (w w' : world)
    (r : StreamingResponse) :
  download_document E doc_id w = (Returns r, w') ->
  w' = w
  /\ exists o doc file_id f,
       of_str doc_id = Returns o
       /\ List.find (has_id o) (documents w) = Some doc
       /\ truthy (get doc "file_id") = true
       /\ ObjectId_of (get doc "file_id") = Returns file_id
       /\ files w !! oid_value file_id = Some f
       /\ body r = gf_data f
       /\ media_type r = default (VStr pdf_mime) (doc !! lit "content_type")
       /\ headers r
          = [(lit "Content-Disposition",
              lit "attachment; filename="
              ++ py_str (default (VStr (lit "document.pdf")) (doc !! lit "filename")))].
Proof. apply download_returns. Qed.

Lemma download_serves_the_record_witness :
  download_document (Examples.env_of [] []) (to_str Examples.doc_oid) Examples.bare_world
  = (Returns {| body := [Byte.x25; Byte.x50];
                media_type := VStr (lit "application/pdf");
                headers := [(lit "Content-Disposition",
                             lit "attachment; filename=document.pdf")] |},
     Examples.bare_world)
  /\ exists o doc file_id f,
       of_str (to_str Examples.doc_oid) = Returns o
       /\ List.find (has_id o) (documents Examples.bare_world) = Some doc
       /\ truthy (get doc "file_id") = true
       /\ ObjectId_of (get doc "file_id") = Returns file_id
       /\ files Examples.bare_world !! oid_value file_id = Some f
       /\ [Byte.x25; Byte.x50] = gf_data f
       /\ VStr (lit "application/pdf")
          = default (VStr pdf_mime) (doc !! lit "content_type")
       /\ [(lit "Content-Disposition", lit "attachment; filename=document.pdf")]
          = [(lit "Content-Disposition",
              lit "attachment; filename="
              ++ py_str (default (VStr (lit "document.pdf")) (doc !! lit "filename")))].
Proof.
  assert (Hrun : download_document (Examples.env_of [] []) (to_str Examples.doc_oid)
                   Examples.bare_world
                 = (Returns {| body := [Byte.x25; Byte.x50];
                               media_type := VStr (lit "application/pdf");
                               headers := [(lit "Content-Disposition",
                                            lit "attachment; filename=document.pdf")] |},
                    Examples.bare_world)).
  { vm_compute. reflexivity. }
  split; [exact Hrun|].
  exact (proj2 (download_serves_the_record _ _ _ _ _ Hrun)).
Defined.

(** X16: whenever the download of the identifier that an upload returned
    itself returns, it streams the uploaded bytes as an attachment named
    after the uploaded file, with the media type [application/pdf]. *)
Theorem download_names_the_uploaded_file (E : env) (file : UploadFile.t) (use_ocr : bool)
    (ocr_api_key : option str) (w w' : world) (resp : UploadResponse.t) :
  upload_document E file use_ocr ocr_api_key w = (Returns resp, w') ->
  forall E' r w'',
    download_document E' (UploadResponse.id resp) w' = (Returns r, w'') ->
    body r = UploadFile.content file
    /\ media_type r = VStr pdf_mime
    /\ headers r
       = [(lit "Content-Disposition",
           lit "attachment; filename=" ++ UploadResponse.filename resp)].
Proof.
  intros Hrun E' r w'' Hdl.
  destruct (decide (UploadFile.content_type file = Some pdf_mime)) as [Hct|Hct];
    [|rewrite upload_not_pdf in Hrun by assumption; discriminate].
  destruct (upload_pdf E file use_ocr ocr_api_key w Hct)
    as (text & final & used & evs & _ & _ & _ & Heq).
  rewrite Heq in Hrun.
  apply persist_returns in Hrun
    as (d & fid & did & fname & ct & _ & _ & _ & _ & Hnew & _ & Hct' & -> & ->).
  assert (ct = pdf_mime) as -> by congruence.
  cbn [UploadResponse.id UploadResponse.filename] in *.
  apply download_returns in Hdl
    as (_ & o & doc & fid' & f & Ho & Hdoc & _ & Hfid & Hfile & -> & -> & ->).
  rewrite of_str_to_str in Ho. injection Ho as <-.
  unfold documents in Hdoc. cbn [db] in Hdoc.
  rewrite collection_add_document in Hdoc.
  change (collection (add_file d fid _) (lit "document"))
    with (collection d (lit "document")) in Hdoc.
  rewrite (find_snoc _ _ _ Hnew (has_id_new did _)) in Hdoc. injection Hdoc as <-.
  destruct (record_fields did fname pdf_mime (Z.of_nat (length (UploadFile.content file)))
              final used fid) as (Hname & Hctype & _ & _ & _ & Hfield).
  unfold get in Hfid. rewrite Hfield in Hfid. cbn [default from_option id ObjectId_of] in Hfid.
  rewrite of_str_to_str in Hfid. injection Hfid as <-.
  unfold files in Hfile. cbn [db add_document add_file fs_files] in Hfile.
  rewrite lookup_insert_eq in Hfile. injection Hfile as <-.
  rewrite Hname, Hctype. repeat split.
Qed.

Lemma download_names_the_uploaded_file_witness :
  headers {| body := [Byte.x25; Byte.x50; Byte.x44; Byte.x46];
             media_type := VStr pdf_mime;
             headers := [(lit "Content-Disposition",
                          lit "attachment; filename=report.pdf")] |}
  = [(lit "Content-Disposition", lit "attachment; filename=" ++ lit "report.pdf")].
Proof.
  refine (proj2 (proj2 (download_names_the_uploaded_file
            (Examples.env_of [Examples.long_text] []) Examples.pdf false None (initial true)
            Examples.after_upload
            (UploadResponse.Make (to_str Examples.doc_oid) (lit "report.pdf") 4 false
               Examples.long_text) _
            (Examples.env_of [] [])
            {| body := [Byte.x25; Byte.x50; Byte.x44; Byte.x46];
               media_type := VStr pdf_mime;
               headers := [(lit "Content-Disposition",
                            lit "attachment; filename=report.pdf")] |}
            Examples.after_upload _))).
  - vm_compute. reflexivity.
  - vm_compute. reflexivity.
Defined.

(** ** More on the text extractor *)

Section BlankPages.

Lemma lstrip_spaces (s : str) : Forall (fun c => isspace c = true) s -> lstrip s = [].
Proof.
  induction 1 as [|c s Hc _ IH]; simpl; [reflexivity|]. now rewrite Hc.
Qed.

Lemma join_spaces (texts : list str) :
  Forall (Forall (fun c => isspace c = true)) texts ->
  Forall (fun c => isspace c = true) (join nl texts).
Proof.
  induction 1 as [|t texts Ht Hts IH]; simpl; [constructor|].
  destruct texts as [|t' texts]; [exact Ht|].
  apply Forall_app. split; [exact Ht|].
  constructor; [reflexivity|exact IH].
Qed.

End BlankPages.

(** X17: a PDF that parses but whose pages give nothing except whitespace
    (or nothing at all, or fail) has the empty string as its text, so the
    upload handler takes the OCR path for it whether or not OCR was asked
    for. *)
Theorem blank_pdf_has_no_text (PdfReader : bytes -> outcome reader) (file_bytes : bytes)
    (r : reader) :
  PdfReader file_bytes = Returns r ->
  pages_raise r = None ->
  (forall p c, In p (pages r) -> In c (page_text p) -> isspace c = true) ->
  extract_text_from_pdf PdfReader file_bytes = Returns []
  /\ forall use_ocr, enters_ocr_path use_ocr [] = true.
Proof.
  intros Hr Hnone Hblank. split; [|now intros []].
  rewrite (extract_parsed PdfReader file_bytes r Hr Hnone). f_equal.
  unfold strip. rewrite lstrip_spaces; [reflexivity|].
  apply join_spaces. apply List.Forall_forall. intros t Ht.
  apply filter_In in Ht as [Ht _]. apply in_map_iff in Ht as (p & <- & Hp).
  apply List.Forall_forall. intros c Hc. now apply (Hblank p c).
Qed.

Lemma blank_pdf_has_no_text_witness :
  extract_text_from_pdf
    (fun _ => Returns (Reader [Page (Returns (Some (lit "  ")));
                               Page (Raises (PyError "PdfReadError"));
                               Page (Returns (Some [12%N; 10%N]))] None)) []
  = Returns []
  /\ forall use_ocr, enters_ocr_path use_ocr [] = true.
Proof.
  apply (blank_pdf_has_no_text
           (fun _ => Returns (Reader [Page (Returns (Some (lit "  ")));
                                      Page (Raises (PyError "PdfReadError"));
                                      Page (Returns (Some [12%N; 10%N]))] None)) []
           (Reader [Page (Returns (Some (lit "  ")));
                    Page (Raises (PyError "PdfReadError"));
                    Page (Returns (Some [12%N; 10%N]))] None) eq_refl eq_refl).
  intros p c [<-|[<-|[<-|[]]]]; simpl; intros Hc;
    repeat (destruct Hc as [<-|Hc]; [reflexivity|]); destruct Hc.
Defined.

(** ** The diagnostic endpoint *)

(** X18: the diagnostic endpoint never raises and changes nothing; its report
    always says that the backend runs.  It says "Connected" exactly when a
    database is configured and its name could be read, and "Connected &
    Working" exactly when the collections could be listed as well; it then
    lists the first ten collection names at most.  Without a database the
    report is the same whatever the environment. *)
Theorem test_database_reports (P : Diagnostics.probe) (w : world) :
  exists rep,
    Diagnostics.test_database P w = (Returns rep, w)
    /\ Diagnostics.backend rep = Diagnostics.check_mark ++ lit " Running"
    /\ (Diagnostics.connection_status rep = lit "Connected"
        <-> db w <> None /\ exists name, Diagnostics.db_name P = Diagnostics.Ok name)
    /\ (Diagnostics.database rep = Diagnostics.check_mark ++ lit " Connected & Working"
        <-> db w <> None
            /\ (exists name, Diagnostics.db_name P = Diagnostics.Ok name)
            /\ exists names, Diagnostics.list_collection_names P = Diagnostics.Ok names)
    /\ length (Diagnostics.collections rep) <= 10
    /\ (forall names,
          Diagnostics.database rep = Diagnostics.check_mark ++ lit " Connected & Working" ->
          Diagnostics.list_collection_names P = Diagnostics.Ok names ->
          Diagnostics.collections rep = firstn 10 names)
    /\ (db w = None ->
        rep = Diagnostics.set_database Diagnostics.response0
                (Diagnostics.warning_sign ++ lit "  Available but not initialized")).
Proof.
  unfold Diagnostics.test_database, bind, get_db, ret. eexists.
  split; [reflexivity|].
  destruct (db w) as [d|].
  - destruct (Diagnostics.db_name P) as [name|msg].
    + destruct (Diagnostics.list_collection_names P) as [names|msg]; cbn.
      * split; [reflexivity|].
        split; [split; [intros _; split; [discriminate|eauto]|reflexivity]|].
        split; [split; [intros _; split; [discriminate|eauto]|reflexivity]|].
        split; [rewrite length_firstn; lia|].
        split; [now intros names' _ [= <-]|discriminate].
      * split; [reflexivity|].
        split; [split; [intros _; split; [discriminate|eauto]|reflexivity]|].
        split; [split; [discriminate|intros (_ & _ & names & [=])]|].
        split; [lia|]. split; [discriminate|discriminate].
    + cbn. split; [reflexivity|].
      split; [split; [discriminate|intros (_ & name & [=])]|].
      split; [split; [discriminate|intros (_ & (name & [=]) & _)]|].
      split; [lia|]. split; [discriminate|discriminate].
  - cbn. split; [reflexivity|].
    split; [split; [discriminate|now intros [[] _]]|].
    split; [split; [discriminate|now intros [[] _]]|].
    split; [lia|]. split; [discriminate|reflexivity].
Qed.

(** X19: an error of the driver is reported by its message cut to 80
    characters.  When the name cannot be read, the report says so, stays "Not
    Connected" and lists nothing, though it already tells whether
    [DATABASE_URL] is set; when only the listing fails, it stays "Connected"
    with the name.  Whatever the messages, the [database] field has at most
    105 characters. *)
Theorem test_database_cuts_error_messages (P : Diagnostics.probe) (w : world)
    (d : database) :
  db w = Some d ->
  exists rep,
    Diagnostics.test_database P w = (Returns rep, w)
    /\ length (Diagnostics.database rep) <= 105
    /\ (forall message,
          Diagnostics.db_name P = Diagnostics.Failed message ->
          Diagnostics.database rep
          = Diagnostics.cross_mark ++ lit " Error: " ++ firstn 80 message
          /\ Diagnostics.connection_status rep = lit "Not Connected"
          /\ Diagnostics.database_name rep = None
          /\ Diagnostics.collections rep = []
          /\ Diagnostics.database_url rep <> None)
    /\ (forall name message,
          Diagnostics.db_name P = Diagnostics.Ok name ->
          Diagnostics.list_collection_names P = Diagnostics.Failed message ->
          Diagnostics.database rep
          = Diagnostics.warning_sign ++ lit "  Connected but Error: " ++ firstn 80 message
          /\ Diagnostics.connection_status rep = lit "Connected"
          /\ Diagnostics.database_name rep <> None
          /\ Diagnostics.collections rep = []).
Proof.
  intros Hdb. unfold Diagnostics.test_database, bind, get_db, ret. rewrite Hdb.
  eexists. split; [reflexivity|].
  destruct (Diagnostics.db_name P) as [name|msg].
  - destruct (Diagnostics.list_collection_names P) as [names|msg]; cbn.
    + split; [lia|]. split; discriminate.
    + split.
      * pose proof (length_firstn 80 msg). lia.
      * split; [discriminate|]. intros name' message _ [= <-].
        repeat split; discriminate.
  - cbn. split.
    + pose proof (length_firstn 80 msg). lia.
    + split; [|discriminate]. intros message [= <-]. repeat split. discriminate.
Qed.

Lemma test_database_cuts_error_messages_witness :
  exists rep,
    Diagnostics.test_database
      (Diagnostics.Probe (Some (lit "mongodb://db:27017")) (Diagnostics.Ok (Some (lit "app")))
         (Diagnostics.Failed (Examples.long_text ++ Examples.long_text)))
      (initial true) = (Returns rep, initial true)
    /\ length (Diagnostics.database rep) <= 105
    /\ Diagnostics.database rep
       = Diagnostics.warning_sign ++ lit "  Connected but Error: "
         ++ firstn 80 (Examples.long_text ++ Examples.long_text).
Proof.
  destruct (test_database_cuts_error_messages
              (Diagnostics.Probe (Some (lit "mongodb://db:27017"))
                 (Diagnostics.Ok (Some (lit "app")))
                 (Diagnostics.Failed (Examples.long_text ++ Examples.long_text)))
              (initial true) (Database ∅ ∅) eq_refl)
    as (rep & Hrun & Hlen & _ & Hlist).
  exists rep. split; [exact Hrun|]. split; [exact Hlen|].
  exact (proj1 (Hlist _ _ eq_refl eq_refl)).
Defined.

(** ** Documents stay *)

Section Durability.

Lemma find_app_found {A} (f : A -> bool) (l l' : list A) (x : A) :
  List.find f l = Some x -> List.find f (l ++ l') = Some x.
Proof.
  induction l as [|a l IH]; simpl; [discriminate|].
  destruct (f a); [trivial|exact IH].
Qed.

Lemma handle_holds o doc file_id f E r w :
  holds o doc file_id f w -> holds o doc file_id f (handle E r w).
Proof.
  intros (d & Hdb & Hdoc & Hfile).
  destruct r as [file use_ocr ocr_api_key|limit|doc_id]; cbn [handle].
  - destruct (upload_effects E file use_ocr ocr_api_key w d Hdb)
      as (ocr & d' & writes & text & used & -> & _ & Hst).
    destruct (persisted_keeps _ _ _ _ _ _ _ Hst) as (Hfiles & new & Hnew & _).
    exists d'. split; [reflexivity|]. rewrite Hnew.
    split; [now apply find_app_found|now apply Hfiles].
  - rewrite list_world. now exists d.
  - rewrite download_world. now exists d.
Qed.

Lemma run_holds o doc file_id f steps w :
  holds o doc file_id f w -> holds o doc file_id f (run steps w).
Proof.
  revert w. induction steps as [|[E r] steps IH]; intros w Hw; [exact Hw|].
  apply IH. now apply handle_holds.
Qed.

(** The download of a record as [upload_document] makes them. *)
Lemma download_held (E : env) (o file_id : ObjectId) (f : gridfile)
    (filename : str) (size : Z) (text : str) (used : bool) (w : world) :
  find_raises E = None -> gridfs_get_raises E = None ->
  latin1 filename = true ->
  holds o (<[lit "_id" := VOid o]> (record_of filename pdf_mime size text used file_id))
    file_id f w ->
  download_document E (to_str o) w
  = (Returns {| body := gf_data f;
                media_type := VStr pdf_mime;
                headers := [(lit "Content-Disposition",
                             lit "attachment; filename=" ++ filename)] |}, w).
Proof.
  intros Hfind Hget Hlatin (d & Hdb & Hdoc & Hfile).
  rewrite (download_run E (to_str o) w d Hdb).
  rewrite of_str_to_str, Hfind, Hdoc, new_record_not_empty.
  destruct (record_fields o filename pdf_mime size text used file_id)
    as (Hname & Hct & _ & _ & _ & Hfid).
  unfold get, get_or. rewrite Hfid, Hct, Hname.
  cbn [default from_option id truthy ObjectId_of py_str].
  rewrite to_str_nonempty, of_str_to_str, Hget, Hfile.
  cbn [negb orb]. now rewrite StreamingResponse_new_pdf, Hlatin.
Qed.

End Durability.

(** X20: nothing the service does later changes or removes an uploaded
    document: after a successful upload of a file whose name is latin-1 and
    then any requests whatever (uploads, listings, downloads, in any
    environments), the download of the identifier that the upload returned,
    while the stores answer, still gives the uploaded bytes, under the
    uploaded name. *)
Theorem uploaded_documents_stay (E : env) (file : UploadFile.t) (use_ocr : bool)
    (ocr_api_key : option str) (w w' : world) (resp : UploadResponse.t)
    (steps : list (env * request)) (E' : env) :
  upload_document E file use_ocr ocr_api_key w = (Returns resp, w') ->
  latin1 (UploadResponse.filename resp) = true ->
  find_raises E' = None -> gridfs_get_raises E' = None ->
  download_document E' (UploadResponse.id resp) (run steps w')
  = (Returns {| body := UploadFile.content file;
                media_type := VStr pdf_mime;
                headers := [(lit "Content-Disposition",
                             lit "attachment; filename=" ++ UploadResponse.filename resp)] |},
     run steps w').
Proof.
  intros Hrun Hlatin Hfind Hget.
  destruct (decide (UploadFile.content_type file = Some pdf_mime)) as [Hct|Hct];
    [|rewrite upload_not_pdf in Hrun by assumption; discriminate].
  destruct (upload_pdf E file use_ocr ocr_api_key w Hct)
    as (text & final & used & evs & _ & _ & _ & Heq).
  rewrite Heq in Hrun.
  apply persist_returns in Hrun
    as (d & fid & did & fname & ct & _ & _ & _ & _ & Hnew & _ & Hct' & -> & ->).
  assert (ct = pdf_mime) as -> by congruence.
  cbn [UploadResponse.id UploadResponse.filename] in Hlatin |- *.
  apply (download_held E' did fid
           (GridFile (UploadFile.content file) (Some fname) (Some pdf_mime))
           fname (Z.of_nat (length (UploadFile.content file))) final used);
    [assumption|assumption|assumption|].
  apply run_holds. eexists. split; [reflexivity|].
  rewrite collection_add_document.
  change (collection (add_file d fid _) (lit "document"))
    with (collection d (lit "document")).
  split; [apply find_snoc; [assumption|apply has_id_new]|].
  cbn [add_document add_file fs_files]. apply lookup_insert_eq.
Qed.

Lemma uploaded_documents_stay_witness :
  download_document (Examples.env_of [] []) (to_str Examples.doc_oid)
    (run [(Examples.env_of [Examples.short_text] [], Upload Examples.pdf true None);
          (Examples.env_of [] [], ListDocuments 50);
          (Examples.env_of [] [], Download (lit "not-an-id"))]
       Examples.after_upload)
  = (Returns {| body := UploadFile.content Examples.pdf;
                media_type := VStr pdf_mime;
                headers := [(lit "Content-Disposition",
                             lit "attachment; filename=" ++ lit "report.pdf")] |},
     run [(Examples.env_of [Examples.short_text] [], Upload Examples.pdf true None);
          (Examples.env_of [] [], ListDocuments 50);
          (Examples.env_of [] [], Download (lit "not-an-id"))]
       Examples.after_upload).
Proof.
  apply (uploaded_documents_stay (Examples.env_of [Examples.long_text] []) Examples.pdf
           false None (initial true) Examples.after_upload
           (UploadResponse.Make (to_str Examples.doc_oid) (lit "report.pdf") 4 false
              Examples.long_text)
           [(Examples.env_of [Examples.short_text] [], Upload Examples.pdf true None);
            (Examples.env_of [] [], ListDocuments 50);
            (Examples.env_of [] [], Download (lit "not-an-id"))]
           (Examples.env_of [] [])).
  - vm_compute. reflexivity.
  - reflexivity.
  - reflexivity.
  - reflexivity.
Defined.
